(** * analyze_xsd: summary and example generation for XSD documents

    A shallow embedding of [src/analyze_xsd.py].  The program is a thin
    driver around three external libraries: [xmlschema] and [rich] are
    interfaces ([XmlSchemaLib], [RichLib]) whose operations the embedding
    calls where the source does; [pathlib] and the file system under it
    are modelled by a tree of files and directories in which paths are
    resolved component by component.  The file system and the trace of
    what a run did are an explicit [World] threaded through a state and
    error monad. *)

From stdpp Require Import base strings list gmap pretty.
From Stdlib Require Import Ascii.

Set Default Proof Using "Type*".

(** ** Python values *)

(** The line separator of ["\n".join(lines)]. *)
Definition nl : string := String (ascii_of_nat 10) "".

(** [str(v)] of an [Optional[str]], as an f-string renders it. *)
Definition py_str (v : option string) : string :=
  match v with
  | Some s => s
  | None => "None"
  end.

(** [sep.join(lines)]. *)
Definition py_join (sep : string) (lines : list string) : string :=
  String.concat sep lines.

(** ** pathlib.Path

    A path is the tuple of its [parts], as [PurePosixPath.parts] has it:
    the root (["/"], or ["//"] for exactly two leading slashes) is the
    first part of an absolute path; [".."] parts are kept. *)
Notation Path := (list string).

(** Split at every slash; [cur] is the component read so far. *)
Fixpoint split_slash (s cur : string) : list string :=
  match s with
  | EmptyString => [cur]
  | String c s' =>
      if Ascii.eqb c "/" then cur :: split_slash s' ""
      else split_slash s' (cur +:+ String c "")
  end.

(** The root of a path string: one slash, or two when the string starts
    with exactly two. *)
Definition root_of (s : string) : option string :=
  match s with
  | String c1 s1 =>
      if Ascii.eqb c1 "/" then
        match s1 with
        | String c2 s2 =>
            if Ascii.eqb c2 "/" then
              match s2 with
              | String c3 _ => if Ascii.eqb c3 "/" then Some "/" else Some "//"
              | EmptyString => Some "//"
              end
            else Some "/"
        | EmptyString => Some "/"
        end
      else None
  | EmptyString => None
  end.

Definition is_root (part : string) : bool :=
  bool_decide (part = "/" ∨ part = "//").

(** [Path(s)]: empty and ["."] components are dropped. *)
Definition PurePath (s : string) : Path :=
  let comps :=
    filter (λ c, c ≠ "" ∧ c ≠ ".") (split_slash s "") in
  match root_of s with
  | Some root => root :: comps
  | None => comps
  end.

(** [str(p)]. *)
Definition path_str (p : Path) : string :=
  match p with
  | [] => "."
  | part :: rest =>
      if is_root part then part +:+ py_join "/" rest else py_join "/" p
  end.

(** [p / name] for a one-component [name]. *)
Definition truediv (p : Path) (name : string) : Path := p ++ [name].
Infix "</>" := truediv (at level 40, left associativity).

(** ** The schema object graph of [xmlschema] *)

(** An XSD type: [name] is [None] for an anonymous type; [base_type] is
    absent for a type that derives from nothing. *)
Inductive XsdType : Type :=
  mkXsdType { type_name : option string; base_type : option XsdType }.

(** A global element declaration; [elem_type] is [None] when
    [elem.type] is falsy. *)
Record XsdElement : Type :=
  mkXsdElement { elem_name : string; elem_type : option XsdType }.

(** The schema: [xs_version] is [None] when the object has no attribute
    [version] at all, and [Some v] when it has one ([v] may be Python's
    [None]).  The two name spaces are mappings in iteration order. *)
Record XMLSchema : Type := mkXMLSchema {
  xs_version : option (option string);
  xs_elements : list (string * XsdElement);
  xs_types : list (string * XsdType)
}.

(** ** lxml trees *)

Inductive Element : Type :=
  mkElement { tag : string; text : option string; children : list Element }.

Record ElementTree : Type := mkElementTree { getroot : Element }.

(** ** Exceptions *)

(** The error numbers of the file system calls, each with its subclass
    of [OSError]. *)
Inductive Errno : Type :=
  | ENOENT    (* FileNotFoundError *)
  | EEXIST    (* FileExistsError *)
  | ENOTDIR   (* NotADirectoryError *)
  | EISDIR.   (* IsADirectoryError *)

(** Instances of Python's [Exception]. *)
Inductive Exception : Type :=
  | ValueError (msg : string)
  | StopIteration
  | KeyError (key : string)
  | AttributeError (msg : string)
  | OSError (errno : Errno) (filename : string)
  | MarkupError (msg : string)
  | LibraryError (cls msg : string).

(** [BaseException]: an [Exception], or the [SystemExit] that [main]
    raises with a message. *)
Inductive BaseException : Type :=
  | Exc (e : Exception)
  | SystemExit (code : string).

Definition strerror (errno : Errno) : string :=
  match errno with
  | ENOENT => "[Errno 2] No such file or directory"
  | EEXIST => "[Errno 17] File exists"
  | ENOTDIR => "[Errno 20] Not a directory"
  | EISDIR => "[Errno 21] Is a directory"
  end.

(** [str(e)]. *)
Definition exn_str (e : Exception) : string :=
  match e with
  | ValueError msg => msg
  | StopIteration => ""
  | KeyError key => "'" +:+ key +:+ "'"
  | AttributeError msg => msg
  | OSError errno filename => strerror errno +:+ ": '" +:+ filename +:+ "'"
  | MarkupError msg => msg
  | LibraryError _ msg => msg
  end.

(** ** The file system

    A tree of nodes under canonical paths: a canonical path has no
    [".."] part, except that a relative one may start with some (the
    directories above the working directory).  The working directory
    [[]], the roots and the directories above the working directory are
    there always ([ambient]); every other node is an entry of the map.
    There are no symbolic links, no permissions and no second process:
    a call fails for the reasons that [Errno] lists, and for no other. *)

(** What a file holds, by the call that wrote it. *)
Inductive FileData : Type :=
  | TextData (text encoding : string)
  | XmlData (tree : ElementTree) (xml_declaration : bool)
      (encoding : string) (pretty_print : bool).

Inductive Node : Type :=
  | File (d : FileData)
  | Dir.

Definition is_dir_node (n : Node) : bool :=
  match n with
  | Dir => true
  | File _ => false
  end.

Definition ambient (q : Path) : bool :=
  match q with
  | [part] => is_root part || bool_decide (part = "..")
  | _ => forallb (λ part, bool_decide (part = "..")) q
  end.

Definition node_at (fs : gmap Path Node) (q : Path) : option Node :=
  if ambient q then Some Dir else fs !! q.

(** [q/..] for a directory [q]. *)
Definition parent_dir (q : Path) : Path :=
  match q with
  | [part] => if is_root part then q
              else if bool_decide (part = "..") then q ++ [".."] else []
  | _ => if ambient q then q ++ [".."] else removelast q
  end.

(** One step of path resolution from the directory [cur]. *)
Definition step (cur : Path) (part : string) : Path :=
  if bool_decide (part = "..") then parent_dir cur else cur ++ [part].

(** Resolution of [parts] from [cur]: every component is looked up in a
    directory, so everything before the last component must be a
    directory that is there. *)
Fixpoint walk (fs : gmap Path Node) (cur : Path) (parts : list string)
    : Errno + Path :=
  match parts with
  | [] => inr cur
  | part :: rest =>
      match node_at fs cur with
      | Some Dir => walk fs (step cur part) rest
      | Some (File _) => inl ENOTDIR
      | None => inl ENOENT
      end
  end.

(** The canonical path that [p] names, whether or not anything is
    there. *)
Definition resolve (fs : gmap Path Node) (p : Path) : Errno + Path :=
  match p with
  | part :: rest => if is_root part then walk fs [part] rest else walk fs [] p
  | [] => inr []
  end.

(** [os.stat(p)]. *)
Definition stat (fs : gmap Path Node) (p : Path) : Errno + Node :=
  match resolve fs p with
  | inl errno => inl errno
  | inr q =>
      match node_at fs q with
      | Some n => inr n
      | None => inl ENOENT
      end
  end.

(** [p.exists()] and [p.is_dir()]. *)
Definition exists_path (fs : gmap Path Node) (p : Path) : bool :=
  match stat fs p with
  | inr _ => true
  | inl _ => false
  end.

Definition is_dir_path (fs : gmap Path Node) (p : Path) : bool :=
  match stat fs p with
  | inr n => is_dir_node n
  | inl _ => false
  end.

(** The content of the regular file that [p] names. *)
Definition read_file (fs : gmap Path Node) (p : Path) : Errno + FileData :=
  match stat fs p with
  | inl errno => inl errno
  | inr (File d) => inr d
  | inr Dir => inl EISDIR
  end.

(** [os.mkdir(p)]. *)
Definition os_mkdir (fs : gmap Path Node) (p : Path)
    : Errno + gmap Path Node :=
  match resolve fs p with
  | inl errno => inl errno
  | inr q =>
      match node_at fs q with
      | Some _ => inl EEXIST
      | None => inr (<[q := Dir]> fs)
      end
  end.

(** [open(p, "w")], the content written and the file closed. *)
Definition os_write (fs : gmap Path Node) (p : Path) (d : FileData)
    : Errno + gmap Path Node :=
  match resolve fs p with
  | inl errno => inl errno
  | inr q =>
      match node_at fs q with
      | Some Dir => inl EISDIR
      | _ => inr (<[q := File d]> fs)
      end
  end.

(** [Path.mkdir(parents=True, exist_ok=True)], on the reversed parts so
    that the parent is the tail: [os.mkdir] is tried first; on
    [FileNotFoundError] the parent is made in the same way and
    [os.mkdir] tried again; any other [OSError] is passed over when the
    path is a directory.  A failed call keeps the parents it has made. *)
Fixpoint mkdir_rev (fs : gmap Path Node) (rparts : list string)
    : (Exception + unit) * gmap Path Node :=
  let p := rev rparts in
  match os_mkdir fs p with
  | inr fs' => (inr tt, fs')
  | inl ENOENT =>
      match rparts with
      | [] => (inl (OSError ENOENT (path_str p)), fs)
      | _ :: rparent =>
          match mkdir_rev fs rparent with
          | (inl e, fs1) => (inl e, fs1)
          | (inr _, fs1) =>
              match os_mkdir fs1 p with
              | inr fs2 => (inr tt, fs2)
              | inl errno =>
                  if is_dir_path fs1 p then (inr tt, fs1)
                  else (inl (OSError errno (path_str p)), fs1)
              end
          end
      end
  | inl errno =>
      if is_dir_path fs p then (inr tt, fs)
      else (inl (OSError errno (path_str p)), fs)
  end.

Definition mkdir_parents (fs : gmap Path Node) (p : Path)
    : (Exception + unit) * gmap Path Node :=
  mkdir_rev fs (rev p).

(** ** The world: file system, and the trace of what the run did *)

(** A call of the file system or of [print] leaves its event when it
    returns, and none when it raises; a call into [xmlschema] (a schema
    load, [to_etree]) leaves its event when it is made, whether it
    returns or raises. *)
Inductive Event : Type :=
  | EMkdir (p : Path)
  | EWriteFile (p : Path) (d : FileData)
  | EPrint (markup : string)
  | ELoadSchema (p : Path)
  | EToEtree (e : XsdElement).

Record World : Type := mkWorld {
  files : gmap Path Node;
  trace : list Event
}.

Definition log (ev : Event) (w : World) : World :=
  {| files := files w; trace := trace w ++ [ev] |}.

Definition with_files (fs : gmap Path Node) (w : World) : World :=
  {| files := fs; trace := trace w |}.

(** The directories that are entries of the file system. *)
Definition dirs (w : World) : gset Path :=
  dom (filter (λ entry : Path * Node, is_dir_node entry.2 = true) (files w)).

(** The markup strings handed to [rich.print] so far, oldest first. *)
Definition console (w : World) : list string :=
  omap (λ ev, match ev with EPrint s => Some s | _ => None end) (trace w).

(** The writes so far, oldest first: the paths, and the paths with what
    was written. *)
Definition written (w : World) : list Path :=
  omap (λ ev, match ev with EWriteFile p _ => Some p | _ => None end) (trace w).

Definition writes (w : World) : list (Path * FileData) :=
  omap (λ ev, match ev with EWriteFile p d => Some (p, d) | _ => None end)
    (trace w).

Definition path_exists (w : World) (p : Path) : bool :=
  exists_path (files w) p.

(** ** The monad: state [World], errors [E] *)

Definition M (E A : Type) : Type := World → (E + A) * World.

Definition ret {E A} (a : A) : M E A := λ w, (inr a, w).

Definition bind {E A B} (m : M E A) (k : A → M E B) : M E B :=
  λ w, match m w with
       | (inl e, w') => (inl e, w')
       | (inr a, w') => k a w'
       end.

Definition raise {E A} (e : E) : M E A := λ w, (inl e, w).

(** [try: body / except Exception as e: handler e]. *)
Definition try_except {E A} (body : M Exception A)
    (handler : Exception → M E A) : M E A :=
  λ w, match body w with
       | (inl e, w') => handler e w'
       | (inr a, w') => (inr a, w')
       end.

(** An [Exception] that nothing catches travels on as it is. *)
Definition uncaught {A} (m : M Exception A) : M BaseException A :=
  λ w, match m w with
       | (inl e, w') => (inl (Exc e), w')
       | (inr a, w') => (inr a, w')
       end.

(** A pure partial operation inside the monad. *)
Definition lift {E A} (r : E + A) : M E A := λ w, (r, w).

Notation "x <- c1 ;; c2" := (bind c1 (λ x, c2))
  (at level 100, c1 at next level, right associativity).
Notation "c1 ;; c2" := (bind c1 (λ _, c2))
  (at level 100, right associativity).

(** *** File system primitives *)

(** [p.mkdir(parents=True, exist_ok=True)]. *)
Definition Path_mkdir (p : Path) : M Exception unit :=
  λ w, match mkdir_parents (files w) p with
       | (inr _, fs) => (inr tt, log (EMkdir p) (with_files fs w))
       | (inl e, fs) => (inl e, with_files fs w)
       end.

(** [p.exists()]. *)
Definition Path_exists {E} (p : Path) : M E bool :=
  λ w, (inr (path_exists w p), w).

(** [p.write_text(data, encoding=encoding)]. *)
Definition write_text (p : Path) (data encoding : string) : M Exception unit :=
  λ w, match os_write (files w) p (TextData data encoding) with
       | inr fs =>
           (inr tt, log (EWriteFile p (TextData data encoding)) (with_files fs w))
       | inl errno => (inl (OSError errno (path_str p)), w)
       end.

(** [tree.write(str(p), xml_declaration=.., encoding=.., pretty_print=..)];
    [lxml] opens the file that the string names. *)
Definition tree_write (tree : ElementTree) (p : Path)
    (xml_declaration : bool) (encoding : string) (pretty_print : bool)
    : M Exception unit :=
  let d := XmlData tree xml_declaration encoding pretty_print in
  λ w, match os_write (files w) p d with
       | inr fs => (inr tt, log (EWriteFile p d) (with_files fs w))
       | inl errno => (inl (OSError errno (path_str p)), w)
       end.

(** ** The external libraries *)

(** [xsd_parse fs p d] is what [xmlschema] builds from the document [d]
    found at [p] (the file system is there for what the library resolves
    on its own); [xsd_element_to_etree] is the method [to_etree] of the
    class [XsdElement], if the class has one. *)
Class XmlSchemaLib : Type := {
  xsd_parse : gmap Path Node → Path → FileData → Exception + XMLSchema;
  xsd_element_to_etree : option (XsdElement → Exception + Element)
}.

(** [markup_error s] is the exception that [rich.print(s)] raises while
    it reads the console markup of [s], if it raises. *)
Class RichLib : Type := {
  markup_error : string → option Exception
}.

(** [rich.print(s)]. *)
Definition print {rich : RichLib} (s : string) : M Exception unit :=
  λ w, match markup_error s with
       | Some e => (inl e, w)
       | None => (inr tt, log (EPrint s) w)
       end.

(** ** The program *)

Section Program.
Context {lib : XmlSchemaLib} {rich : RichLib}.

(** What [xmlschema.XMLSchema11(p)] returns on the file system [fs]: the
    document that [p] names is opened, then parsed. *)
Definition open_schema (fs : gmap Path Node) (p : Path)
    : Exception + XMLSchema :=
  match read_file fs p with
  | inl errno => inl (OSError errno (path_str p))
  | inr d => xsd_parse fs p d
  end.

(** [xmlschema.XMLSchema11(p)]. *)
Definition XMLSchema11 (p : Path) : M Exception XMLSchema :=
  λ w, (open_schema (files w) p, log (ELoadSchema p) w).

(** The value of the expression [elem.to_etree()]: the attribute lookup
    fails when the class has no such method. *)
Definition to_etree (e : XsdElement) : Exception + Element :=
  match xsd_element_to_etree with
  | Some method => method e
  | None =>
      inl (AttributeError "'XsdElement' object has no attribute 'to_etree'")
  end.

(** [elem.to_etree()], evaluated. *)
Definition call_to_etree (e : XsdElement) : M Exception Element :=
  λ w, (to_etree e, log (EToEtree e) w).

(** *** Mappings: truth value, [next(iter(m))], [m[k]] *)

Definition py_truth {A} (m : list (string * A)) : bool :=
  match m with
  | [] => false
  | _ :: _ => true
  end.

Definition next_iter {A} (m : list (string * A)) : Exception + string :=
  match m with
  | [] => inl StopIteration
  | (k, _) :: _ => inr k
  end.

Fixpoint getitem {A} (m : list (string * A)) (k : string) : Exception + A :=
  match m with
  | [] => inl (KeyError k)
  | (k', v) :: m' => if String.eqb k' k then inr v else getitem m' k
  end.

(** *** summarize_schema *)

(** [f"- {qname} -> type={elem.type.name if elem.type else 'anyType'}"]. *)
Definition element_line (qname : string) (elem : XsdElement) : string :=
  "- " +:+ qname +:+ " -> type=" +:+
  match elem_type elem with
  | Some t => py_str (type_name t)
  | None => "anyType"
  end.

(** [getattr(getattr(t, 'base_type', None), 'name', None)]. *)
Definition base_name (t : XsdType) : option string :=
  match base_type t with
  | Some b => type_name b
  | None => None
  end.

(** [f"- {qname} (base={base})"]. *)
Definition type_line (qname : string) (t : XsdType) : string :=
  "- " +:+ qname +:+ " (base=" +:+ py_str (base_name t) +:+ ")".

(** [getattr(schema, 'version', 'n/a')], rendered. *)
Definition version_str (schema : XMLSchema) : string :=
  match xs_version schema with
  | Some v => py_str v
  | None => "n/a"
  end.

(** The body of [summarize_schema] after the schema is loaded: the list
    [lines] grows by one [append] at a time. *)
Definition summary_lines (xsd_path : Path) (schema : XMLSchema)
    : list string :=
  let lines := [] in
  let lines := lines ++ ["Schema: " +:+ path_str xsd_path] in
  let lines := lines ++ ["Version: " +:+ version_str schema] in
  let lines := lines ++ [""] in
  let lines := lines ++ ["Global elements:"] in
  let lines :=
    fold_left (λ acc '(qname, elem), acc ++ [element_line qname elem])
      (xs_elements schema) lines in
  let lines := lines ++ [""] in
  let lines := lines ++ ["Global types:"] in
  let lines :=
    fold_left (λ acc '(qname, t), acc ++ [type_line qname t])
      (xs_types schema) lines in
  lines.

(** The report, section by section: the closed form of [summary_lines]
    (lemma [summary_lines_eq]), in which the statements below are
    written. *)
Definition report_lines (xsd_path : Path) (schema : XMLSchema) : list string :=
  ["Schema: " +:+ path_str xsd_path;
   "Version: " +:+ version_str schema;
   "";
   "Global elements:"]
  ++ map (λ '(qname, elem), element_line qname elem) (xs_elements schema)
  ++ [""; "Global types:"]
  ++ map (λ '(qname, t), type_line qname t) (xs_types schema).

Definition summarize_schema (xsd_path : Path) : M Exception string :=
  schema <- XMLSchema11 xsd_path ;;
  ret (py_join nl (summary_lines xsd_path schema)).

(** *** generate_example_xml *)

Definition no_elements_msg : string :=
  "No global elements found in schema; cannot generate example".

Definition generate_example_xml (xsd_path : Path) : M Exception ElementTree :=
  schema <- XMLSchema11 xsd_path ;;
  if negb (py_truth (xs_elements schema)) then
    raise (ValueError no_elements_msg)
  else
    root_qname <- lift (next_iter (xs_elements schema)) ;;
    elem <- lift (getitem (xs_elements schema) root_qname) ;;
    example <- call_to_etree elem ;;
    ret (mkElementTree example).

(** *** main *)

(** [main] after [parse_args]: [xsd] is the required [--xsd], [out] the
    optional [--out] (default ["out"]).  The calls outside the [try]
    statement let their exceptions leave [main]. *)
Definition main (xsd : string) (out : option string) : M BaseException unit :=
  let args_xsd := xsd in
  let args_out := default "out" out in
  let xsd_path := PurePath args_xsd in
  let out_dir := PurePath args_out in
  uncaught (Path_mkdir out_dir) ;;
  found <- Path_exists xsd_path ;;
  if negb found then
    raise (SystemExit ("XSD not found: " +:+ path_str xsd_path))
  else
    uncaught (print ("[bold]Analyzing[/bold] " +:+ path_str xsd_path)) ;;
    summary <- uncaught (summarize_schema xsd_path) ;;
    uncaught (write_text (out_dir </> "schema_summary.txt") summary "utf-8") ;;
    uncaught (print "- Wrote out/schema_summary.txt") ;;
    try_except
      (tree <- generate_example_xml xsd_path ;;
       tree_write tree (out_dir </> "example.xml") true "utf-8" true ;;
       print "- Wrote out/example.xml")
      (λ e,
         uncaught
           (print ("[yellow]- Skipped example XML generation: " +:+ exn_str e))).

End Program.

(** The exit status of the process, from how [main] ended: an uncaught
    exception and a [SystemExit] with a message both give 1. *)
Definition exit_status (r : BaseException + unit) : nat :=
  match r with
  | inr _ => 0
  | inl (Exc _) => 1
  | inl (SystemExit _) => 1
  end.

(** What the interpreter writes to stderr for a [SystemExit]. *)
Definition diagnostic (r : BaseException + unit) : option string :=
  match r with
  | inl (SystemExit msg) => Some msg
  | _ => None
  end.

(** ** Substrings *)

(** [needle in hay]. *)
Definition contains (hay needle : string) : Prop :=
  ∃ pre post, hay = pre +:+ needle +:+ post.

(** [line] is one of the lines that [hay] joins. *)
Definition has_line (hay line : string) : Prop :=
  ∃ before after, hay = py_join nl (before ++ line :: after).

(** ** The stations of a run of [main] *)

Definition out_dir_of (out : option string) : Path :=
  PurePath (default "out" out).

Definition summary_path (out_dir : Path) : Path :=
  out_dir </> "schema_summary.txt".

Definition example_path (out_dir : Path) : Path :=
  out_dir </> "example.xml".

Definition analyzing_msg (xsd_path : Path) : string :=
  "[bold]Analyzing[/bold] " +:+ path_str xsd_path.

Definition not_found_msg (xsd_path : Path) : string :=
  "XSD not found: " +:+ path_str xsd_path.

Definition skipped_msg (e : Exception) : string :=
  "[yellow]- Skipped example XML generation: " +:+ exn_str e.

Section Stations.
Context {lib : XmlSchemaLib} {rich : RichLib}.

(** The run has made the output directory, has found the schema path
    and has printed the banner; [w2] is the world then. *)
Definition validated_run (xsd : string) (out : option string)
    (w w2 : World) : Prop :=
  ∃ w1,
    Path_mkdir (out_dir_of out) w = (inr tt, w1) ∧
    path_exists w1 (PurePath xsd) = true ∧
    print (analyzing_msg (PurePath xsd)) w1 = (inr tt, w2).

(** After that the summarizer has returned [summary], and the summary
    is written and announced; [w5] is the world in which example
    generation starts. *)
Definition summarized_run (xsd : string) (out : option string)
    (w : World) (summary : string) (w5 : World) : Prop :=
  ∃ w2 w3 w4,
    validated_run xsd out w w2 ∧
    summarize_schema (PurePath xsd) w2 = (inr summary, w3) ∧
    write_text (summary_path (out_dir_of out)) summary "utf-8" w3
      = (inr tt, w4) ∧
    print "- Wrote out/schema_summary.txt" w4 = (inr tt, w5).

End Stations.

(** The regular files of a directory, by name. *)
Definition dir_has (fs : gmap Path Node) (d : Path) (name : string) : Prop :=
  ∃ data, read_file fs (d </> name) = inr data.

Definition dir_holds_only (fs : gmap Path Node) (d : Path)
    (name : string) : Prop :=
  ∀ other, dir_has fs d other → other = name.

(** The second file system has every entry of the first, and besides
    them only new directories at places that were free. *)
Definition only_new_dirs (fs fs' : gmap Path Node) : Prop :=
  ∀ q, fs' !! q = fs !! q ∨ (fs !! q = None ∧ fs' !! q = Some Dir).

(** Nothing of the first file system is lost in the second: a path
    that named a directory still names one, and a path that named a
    regular file still names one. *)
Definition keeps_entries (fs fs' : gmap Path Node) : Prop :=
  ∀ x n, stat fs x = inr n →
         ∃ n', stat fs' x = inr n' ∧ is_dir_node n' = is_dir_node n.

(** A computation that loses no entry, in whatever world it starts. *)
Definition files_kept {E A} (m : M E A) : Prop :=
  ∀ w, keeps_entries (files w) (files (m w).2).

(** ** A reading of [rich]'s console markup

    A tag is a bracket whose first character is a lower-case letter,
    [#], [/] or [@] and that closes before the next opening bracket; an
    odd number of backslashes in front of it escapes it.  A closing tag
    [[/name]] must match an open tag, [[/]] closes the last open one;
    otherwise [rich] raises [MarkupError].  Style names are compared as
    they are written. *)

Inductive ScanState : Type :=
  | Outside (backslashes : nat)
  | Opened (backslashes start : nat)
  | InTag (escaped : bool) (start : nat) (body : string) (trailing : nat).

Definition tag_start (c : ascii) : bool :=
  let n := nat_of_ascii c in
  (Nat.leb 97 n && Nat.leb n 122)
  || Ascii.eqb c "#" || Ascii.eqb c "/" || Ascii.eqb c "@".

Definition backslash : ascii := ascii_of_nat 92.

(** The tags of [s] with the index at which each starts; [i] is the
    index of the first character of [s]. *)
Fixpoint scan_tags (s : string) (i : nat) (st : ScanState)
    : list (nat * string) :=
  match s with
  | EmptyString => []
  | String c s' =>
      match st with
      | Outside n =>
          if Ascii.eqb c backslash then scan_tags s' (S i) (Outside (S n))
          else if Ascii.eqb c "[" then scan_tags s' (S i) (Opened n i)
          else scan_tags s' (S i) (Outside 0)
      | Opened n start =>
          if tag_start c then
            scan_tags s' (S i) (InTag (Nat.odd n) start (String c "") 0)
          else if Ascii.eqb c "[" then scan_tags s' (S i) (Opened 0 i)
          else if Ascii.eqb c backslash then scan_tags s' (S i) (Outside 1)
          else scan_tags s' (S i) (Outside 0)
      | InTag escaped start body trailing =>
          if Ascii.eqb c "]" then
            if escaped then scan_tags s' (S i) (Outside 0)
            else (start, body) :: scan_tags s' (S i) (Outside 0)
          else if Ascii.eqb c "[" then scan_tags s' (S i) (Opened trailing i)
          else if Ascii.eqb c backslash then
            scan_tags s' (S i)
              (InTag escaped start (body +:+ String c "") (S trailing))
          else
            scan_tags s' (S i) (InTag escaped start (body +:+ String c "") 0)
      end
  end.

(** The part of a tag before its first [=]. *)
Fixpoint tag_name (body : string) : string :=
  match body with
  | EmptyString => ""
  | String c body' => if Ascii.eqb c "=" then "" else String c (tag_name body')
  end.

Fixpoint lstrip (s : string) : string :=
  match s with
  | String c s' => if Ascii.eqb c " " then lstrip s' else s
  | EmptyString => ""
  end.

Definition strip (s : string) : string :=
  String.rev (lstrip (String.rev (lstrip s))).

(** Remove the topmost [name] of the stack of open tags. *)
Fixpoint pop_style (name : string) (stack : list string)
    : option (list string) :=
  match stack with
  | [] => None
  | top :: below =>
      if String.eqb top name then Some below
      else option_map (cons top) (pop_style name below)
  end.

Fixpoint check_tags (tags : list (nat * string)) (stack : list string)
    : option Exception :=
  match tags with
  | [] => None
  | (position, body) :: tags' =>
      match tag_name body with
      | String c closing =>
          if Ascii.eqb c "/" then
            let style_name := strip closing in
            if String.eqb style_name "" then
              match stack with
              | [] =>
                  Some (MarkupError
                          ("closing tag '[/]' at position " +:+ pretty position
                           +:+ " has nothing to close"))
              | _ :: below => check_tags tags' below
              end
            else
              match pop_style style_name stack with
              | Some stack' => check_tags tags' stack'
              | None =>
                  Some (MarkupError
                          ("closing tag '[" +:+ body +:+ "]' at position "
                           +:+ pretty position
                           +:+ " doesn't match any open tag"))
              end
          else check_tags tags' (tag_name body :: stack)
      | EmptyString => check_tags tags' stack
      end
  end.

Definition rich_markup : RichLib :=
  {| markup_error := λ s, check_tags (scan_tags s 0 (Outside 0)) [] |}.

(** ** A small [xmlschema], for concrete runs

    A stand-in that knows three documents: the two schemas of the test
    suite and a schema with no declarations.  As in the library, the
    class [XsdElement] has no method [to_etree]. *)

Definition xs_string : XsdType :=
  mkXsdType (Some "{http://www.w3.org/2001/XMLSchema}string")
    (Some (mkXsdType (Some "{http://www.w3.org/2001/XMLSchema}anySimpleType")
             None)).

Definition root_element : XsdElement := mkXsdElement "Root" (Some xs_string).

Definition mini_schema : XMLSchema :=
  mkXMLSchema (Some None)
    [("Root", root_element)]
    [("CodeType", mkXsdType (Some "CodeType") (Some xs_string))].

Definition empty_schema : XMLSchema := mkXMLSchema (Some None) [] [].

(** The schema of the second test: [Root] has an anonymous complex type
    with one child. *)
Definition nested_root : XsdElement :=
  mkXsdElement "Root"
    (Some (mkXsdType None
             (Some (mkXsdType (Some "{http://www.w3.org/2001/XMLSchema}anyType")
                      None)))).

Definition nested_schema : XMLSchema :=
  mkXMLSchema (Some None) [("Root", nested_root)] [].

Definition mini_xsd : string :=
  "<xs:schema xmlns:xs='http://www.w3.org/2001/XMLSchema'>" +:+
  "<xs:element name='Root' type='xs:string'/>" +:+
  "<xs:simpleType name='CodeType'><xs:restriction base='xs:string'/>" +:+
  "</xs:simpleType></xs:schema>".

Definition empty_xsd : string :=
  "<xs:schema xmlns:xs='http://www.w3.org/2001/XMLSchema'/>".

Definition nested_xsd : string :=
  "<xs:schema xmlns:xs='http://www.w3.org/2001/XMLSchema'>" +:+
  "<xs:element name='Root'><xs:complexType><xs:sequence>" +:+
  "<xs:element name='Child' type='xs:string'/>" +:+
  "</xs:sequence></xs:complexType></xs:element></xs:schema>".

Definition demo_parse (fs : gmap Path Node) (p : Path) (d : FileData)
    : Exception + XMLSchema :=
  match d with
  | TextData doc _ =>
      if String.eqb doc mini_xsd then inr mini_schema
      else if String.eqb doc empty_xsd then inr empty_schema
      else if String.eqb doc nested_xsd then inr nested_schema
      else inl (LibraryError "XMLSchemaParseError" "not an XSD schema")
  | XmlData _ _ _ _ =>
      inl (LibraryError "XMLSchemaParseError" "not an XSD schema")
  end.

Definition demo_lib : XmlSchemaLib :=
  {| xsd_parse := demo_parse; xsd_element_to_etree := None |}.

(** Worlds with one schema file and nothing else. *)
Definition mini_world : World :=
  mkWorld {[ ["mini.xsd"] := File (TextData mini_xsd "utf-8") ]} [].

Definition empty_world : World :=
  mkWorld {[ ["empty.xsd"] := File (TextData empty_xsd "utf-8") ]} [].

Definition nested_world : World :=
  mkWorld {[ ["nested.xsd"] := File (TextData nested_xsd "utf-8") ]} [].

(** A world with a file that is no schema. *)
Definition broken_world : World :=
  mkWorld {[ ["broken.xsd"] := File (TextData "<oops" "utf-8") ]} [].

(** The output directory holds an [example.xml] of an earlier run. *)
Definition stale_tree : ElementTree := mkElementTree (mkElement "Old" None []).

Definition stale_world : World :=
  mkWorld
    (<[ ["out"] := Dir ]>
       (<[ ["out"; "example.xml"] := File (XmlData stale_tree true "utf-8" true) ]>
          {[ ["empty.xsd"] := File (TextData empty_xsd "utf-8") ]}))
    [].

(** A world with no file and no directory. *)
Definition blank_world : World := mkWorld ∅ [].

Definition mini_summary : string :=
  py_join nl (report_lines ["mini.xsd"] mini_schema).

Definition empty_summary : string :=
  py_join nl (report_lines ["empty.xsd"] empty_schema).

(** A schema with two global elements, [Root] first, and a library
    that finds it at [two.xsd]. *)
Definition other_element : XsdElement := mkXsdElement "Other" None.

Definition two_schema : XMLSchema :=
  mkXMLSchema None [("Root", root_element); ("Other", other_element)] [].

Definition two_lib : XmlSchemaLib :=
  {| xsd_parse := λ fs p d,
       if decide (p = ["two.xsd"]) then inr two_schema else demo_parse fs p d;
     xsd_element_to_etree := None |}.

Definition two_world : World :=
  mkWorld
    (<[ ["two.xsd"] := File (TextData "<xs:schema/>" "utf-8") ]>
       {[ ["mini.xsd"] := File (TextData mini_xsd "utf-8") ]})
    [].

(** The schema is the file [b].xsd] of the directory [a[]. *)
Definition bracket_world : World :=
  mkWorld
    (<[ ["a["] := Dir ]>
       {[ ["a["; "b].xsd"] := File (TextData mini_xsd "utf-8") ]})
    [].

(** The output directory is there, and in it a directory of the name of
    the summary. *)
Definition summary_dir_world : World :=
  mkWorld
    (<[ ["out"] := Dir ]>
       (<[ ["out"; "schema_summary.txt"] := Dir ]>
          {[ ["mini.xsd"] := File (TextData mini_xsd "utf-8") ]}))
    [].

(** ** Tactics for runs of [main] *)

(** Unfold the stations and the names of paths and messages. *)
Ltac unfold_stations :=
  unfold summarized_run, validated_run, out_dir_of, analyzing_msg,
    not_found_msg, skipped_msg, summary_path, example_path in *.

(** Run [main] along the step outcomes that are hypotheses. *)
Ltac run_main :=
  unfold main, bind, uncaught, try_except, Path_exists, raise;
  cbv beta iota zeta;
  repeat (match goal with
          | H : _ = _ |- _ => rewrite H; clear H
          end; cbn [negb]; cbv beta iota zeta).

(** * Properties *)

(** ** Strings *)

Lemma string_app_cons (x : ascii) (a b : string) :
  String x a +:+ b = String x (a +:+ b).
Proof. reflexivity. Qed.

Lemma string_app_assoc (a b c : string) : (a +:+ b) +:+ c = a +:+ b +:+ c.
Proof.
  induction a as [|x a IH]; [done|]. by rewrite !string_app_cons, IH.
Qed.

Lemma string_app_nil_r (a : string) : a +:+ "" = a.
Proof.
  induction a as [|x a IH]; [done|]. by rewrite string_app_cons, IH.
Qed.

Lemma contains_refl (s : string) : contains s s.
Proof. exists "", "". by rewrite string_app_nil_r. Qed.

Lemma contains_app_l (a b n : string) : contains a n → contains (a +:+ b) n.
Proof.
  intros (pre & post & ->). exists pre, (post +:+ b).
  by rewrite !string_app_assoc.
Qed.

Lemma contains_app_r (a b n : string) : contains b n → contains (a +:+ b) n.
Proof.
  intros (pre & post & ->). exists (a +:+ pre), post.
  by rewrite !string_app_assoc.
Qed.

Lemma contains_trans (a b c : string) :
  contains a b → contains b c → contains a c.
Proof.
  intros (p1 & q1 & ->) (p2 & q2 & ->).
  apply contains_app_r, contains_app_l, contains_app_r, contains_app_l,
    contains_refl.
Qed.

Lemma py_join_cons (sep x y : string) (l : list string) :
  py_join sep (x :: y :: l) = x +:+ sep +:+ py_join sep (y :: l).
Proof. reflexivity. Qed.

Lemma contains_join (sep x : string) (l : list string) :
  x ∈ l → contains (py_join sep l) x.
Proof.
  induction l as [|y l IH]; intros Hin; [by apply elem_of_nil in Hin|].
  apply elem_of_cons in Hin as [->|Hin].
  - destruct l as [|z l]; [apply contains_refl|].
    rewrite py_join_cons. apply contains_app_l, contains_refl.
  - destruct l as [|z l]; [by apply elem_of_nil in Hin|].
    rewrite py_join_cons. by apply contains_app_r, contains_app_r, IH.
Qed.

Lemma has_line_elem_of (x : string) (l : list string) :
  x ∈ l → has_line (py_join nl l) x.
Proof.
  intros (before & after & ->)%list_elem_of_split. by exists before, after.
Qed.

(** ** What the two functions compute *)

Section Functions.
Context {lib : XmlSchemaLib}.

(** A loop that appends one line per item builds the mapped list. *)
Lemma fold_left_append {A} (g : list string → A → list string)
    (f : A → string) (l : list A) (acc : list string) :
  (∀ acc x, g acc x = acc ++ [f x]) →
  fold_left g l acc = acc ++ map f l.
Proof.
  intros Hg. revert acc. induction l as [|x l IH]; intros acc; simpl.
  - by rewrite app_nil_r.
  - by rewrite IH, Hg, <- app_assoc.
Qed.

Lemma summary_lines_eq (xsd_path : Path) (schema : XMLSchema) :
  summary_lines xsd_path schema = report_lines xsd_path schema.
Proof.
  unfold summary_lines, report_lines.
  rewrite (fold_left_append _ (λ '(qname, t), type_line qname t))
    by (by intros acc [qname t]).
  rewrite (fold_left_append _ (λ '(qname, elem), element_line qname elem))
    by (by intros acc [qname elem]).
  simpl. by rewrite <- !app_assoc.
Qed.

Lemma summarize_schema_run (xsd_path : Path) (w : World) :
  summarize_schema xsd_path w =
  (match open_schema (files w) xsd_path with
   | inl e => inl e
   | inr schema => inr (py_join nl (report_lines xsd_path schema))
   end,
   log (ELoadSchema xsd_path) w).
Proof.
  unfold summarize_schema, bind, XMLSchema11, ret.
  destruct (open_schema _ _); [done|]. by rewrite summary_lines_eq.
Qed.

Lemma getitem_head {A} (k : string) (v : A) (m : list (string * A)) :
  getitem ((k, v) :: m) k = inr v.
Proof. simpl. by rewrite String.eqb_refl. Qed.

Lemma generate_example_xml_run (xsd_path : Path) (w : World) :
  generate_example_xml xsd_path w =
  match open_schema (files w) xsd_path with
  | inl e => (inl e, log (ELoadSchema xsd_path) w)
  | inr schema =>
      match xs_elements schema with
      | [] => (inl (ValueError no_elements_msg), log (ELoadSchema xsd_path) w)
      | (_, elem) :: _ =>
          (match to_etree elem with
           | inl e => inl e
           | inr example => inr (mkElementTree example)
           end,
           log (EToEtree elem) (log (ELoadSchema xsd_path) w))
      end
  end.
Proof.
  unfold generate_example_xml, bind, XMLSchema11.
  destruct (open_schema _ _) as [e|schema]; [done|].
  destruct (xs_elements schema) as [|[q elem] rest]; [done|].
  cbn [py_truth negb next_iter lift]. rewrite getitem_head.
  unfold call_to_etree, ret. by destruct (to_etree elem).
Qed.

End Functions.

(** ** Events and what they leave *)

Lemma console_log_print (s : string) (w : World) :
  console (log (EPrint s) w) = console w ++ [s].
Proof. unfold console, log; simpl. by rewrite omap_app. Qed.

Lemma console_log_other (ev : Event) (w : World) :
  (∀ s, ev ≠ EPrint s) → console (log ev w) = console w.
Proof.
  intros Hev. unfold console, log; simpl. rewrite omap_app; simpl.
  destruct ev; try (by rewrite app_nil_r). by destruct (Hev markup).
Qed.

Lemma written_log_write (p : Path) (d : FileData) (w : World) :
  written (log (EWriteFile p d) w) = written w ++ [p].
Proof. unfold written, log; simpl. by rewrite omap_app. Qed.

Lemma written_log_other (ev : Event) (w : World) :
  (∀ p d, ev ≠ EWriteFile p d) → written (log ev w) = written w.
Proof.
  intros Hev. unfold written, log; simpl. rewrite omap_app; simpl.
  destruct ev; try (by rewrite app_nil_r). by destruct (Hev p d).
Qed.

Lemma writes_log_write (p : Path) (d : FileData) (w : World) :
  writes (log (EWriteFile p d) w) = writes w ++ [(p, d)].
Proof. unfold writes, log; simpl. by rewrite omap_app. Qed.

Lemma writes_log_other (ev : Event) (w : World) :
  (∀ p d, ev ≠ EWriteFile p d) → writes (log ev w) = writes w.
Proof.
  intros Hev. unfold writes, log; simpl. rewrite omap_app; simpl.
  destruct ev; try (by rewrite app_nil_r). by destruct (Hev p d).
Qed.

(** ** The summarizer *)

Section Summarizer.
Context {lib : XmlSchemaLib}.

Lemma element_line_contains (qname : string) (elem : XsdElement) :
  contains (element_line qname elem) qname.
Proof.
  unfold element_line. apply contains_app_r, contains_app_l, contains_refl.
Qed.

Lemma type_line_contains (qname : string) (t : XsdType) :
  contains (type_line qname t) qname.
Proof.
  unfold type_line. apply contains_app_r, contains_app_l, contains_refl.
Qed.

Lemma report_has_elements_header (xsd_path : Path) (schema : XMLSchema) :
  "Global elements:" ∈ report_lines xsd_path schema.
Proof. unfold report_lines. set_solver. Qed.

Lemma report_has_types_header (xsd_path : Path) (schema : XMLSchema) :
  "Global types:" ∈ report_lines xsd_path schema.
Proof. unfold report_lines. set_solver. Qed.

Lemma report_has_element_line (xsd_path : Path) (schema : XMLSchema)
    (qname : string) (elem : XsdElement) :
  (qname, elem) ∈ xs_elements schema →
  element_line qname elem ∈ report_lines xsd_path schema.
Proof.
  intros Hin. unfold report_lines.
  apply elem_of_app; right. apply elem_of_app; left.
  apply list_elem_of_fmap. by exists (qname, elem).
Qed.

Lemma report_has_type_line (xsd_path : Path) (schema : XMLSchema)
    (qname : string) (t : XsdType) :
  (qname, t) ∈ xs_types schema →
  type_line qname t ∈ report_lines xsd_path schema.
Proof.
  intros Hin. unfold report_lines.
  do 3 (apply elem_of_app; right).
  apply list_elem_of_fmap. by exists (qname, t).
Qed.

(** C1: for a document that loads as [schema], [summarize_schema] returns
    the report whose lines are the input path, the version of the schema
    object (the sentinel [n/a] when the object has no version attribute,
    [None] when the attribute is [None]), the header [Global elements:]
    followed by one line [- name -> type=...] per global element (the
    name of its type, [anyType] for an untyped element), and the header
    [Global types:] followed by one line [- name (base=...)] per global
    type (the name of its base type, [None] when there is none); the
    path, the version and the name of every global element and type
    occur in the report. *)
Theorem summarize_schema_report (w : World) (xsd_path : Path)
    (schema : XMLSchema) :
  open_schema (files w) xsd_path = inr schema →
  ∃ report,
    (summarize_schema xsd_path w).1 = inr report ∧
    report = py_join nl
      (["Schema: " +:+ path_str xsd_path;
        "Version: " +:+
          match xs_version schema with
          | None => "n/a"
          | Some None => "None"
          | Some (Some version) => version
          end;
        "";
        "Global elements:"]
       ++ map (λ '(qname, elem),
             "- " +:+ qname +:+ " -> type=" +:+
             match elem_type elem with
             | None => "anyType"
             | Some t =>
                 match type_name t with
                 | Some name => name
                 | None => "None"
                 end
             end) (xs_elements schema)
       ++ [""; "Global types:"]
       ++ map (λ '(qname, t),
             "- " +:+ qname +:+ " (base=" +:+
             match base_type t with
             | Some base =>
                 match type_name base with
                 | Some name => name
                 | None => "None"
                 end
             | None => "None"
             end +:+ ")") (xs_types schema)) ∧
    contains report (path_str xsd_path) ∧
    (∀ version, xs_version schema = Some (Some version) →
       has_line report ("Version: " +:+ version)) ∧
    (xs_version schema = None → has_line report "Version: n/a") ∧
    has_line report "Global elements:" ∧
    has_line report "Global types:" ∧
    (∀ qname elem, (qname, elem) ∈ xs_elements schema →
       contains report qname ∧
       (∀ t name, elem_type elem = Some t → type_name t = Some name →
          has_line report ("- " +:+ qname +:+ " -> type=" +:+ name)) ∧
       (elem_type elem = None →
          has_line report ("- " +:+ qname +:+ " -> type=anyType"))) ∧
    (∀ qname t, (qname, t) ∈ xs_types schema →
       contains report qname ∧
       (∀ base name, base_type t = Some base → type_name base = Some name →
          has_line report ("- " +:+ qname +:+ " (base=" +:+ name +:+ ")"))).
Proof.
  intros Hopen. exists (py_join nl (report_lines xsd_path schema)).
  rewrite summarize_schema_run, Hopen. split; [done|]. split.
  { unfold report_lines, version_str.
    rewrite (map_ext (λ '(qname, elem), element_line qname elem)
               (λ '(qname, elem),
                  "- " +:+ qname +:+ " -> type=" +:+
                  match elem_type elem with
                  | None => "anyType"
                  | Some t =>
                      match type_name t with
                      | Some name => name
                      | None => "None"
                      end
                  end)).
    2:{ intros [qname elem]. unfold element_line.
        destruct (elem_type elem) as [t|]; [|done]. by destruct (type_name t). }
    rewrite (map_ext (λ '(qname, t), type_line qname t)
               (λ '(qname, t),
                  "- " +:+ qname +:+ " (base=" +:+
                  match base_type t with
                  | Some base =>
                      match type_name base with
                      | Some name => name
                      | None => "None"
                      end
                  | None => "None"
                  end +:+ ")")).
    2:{ intros [qname t]. unfold type_line, base_name.
        destruct (base_type t) as [base|]; [|done].
        by destruct (type_name base). }
    by destruct (xs_version schema) as [[version|]|]. }
  split.
  { eapply contains_trans; [apply contains_join|].
    - unfold report_lines. apply elem_of_app; left. apply list_elem_of_here.
    - apply contains_app_r, contains_refl. }
  assert (has_line (py_join nl (report_lines xsd_path schema))
            ("Version: " +:+ version_str schema)) as Hversion.
  { apply has_line_elem_of. unfold report_lines. apply elem_of_app; left.
    apply list_elem_of_further, list_elem_of_here. }
  split; [by unfold version_str in Hversion; intros version Hv;
          rewrite Hv in Hversion|].
  split; [by unfold version_str in Hversion; intros Hv;
          rewrite Hv in Hversion|].
  split; [apply has_line_elem_of, report_has_elements_header|].
  split; [apply has_line_elem_of, report_has_types_header|].
  split.
  - intros qname elem Hin.
    pose proof (report_has_element_line xsd_path _ _ _ Hin) as Hline.
    split.
    { eapply contains_trans; [by apply contains_join|].
      apply element_line_contains. }
    apply has_line_elem_of in Hline. unfold element_line in Hline. split.
    + intros t name Ht Hname. by rewrite Ht, Hname in Hline.
    + intros Ht. by rewrite Ht in Hline.
  - intros qname t Hin.
    pose proof (report_has_type_line xsd_path _ _ _ Hin) as Hline.
    split.
    { eapply contains_trans; [by apply contains_join|].
      apply type_line_contains. }
    apply has_line_elem_of in Hline. unfold type_line, base_name in Hline.
    intros base name Hbase Hname. by rewrite Hbase, Hname in Hline.
Qed.

(** C9: whatever the schema declares, also nothing at all, the report has
    both headers [Global elements:] and [Global types:]; with no global
    element the first header is followed at once by the blank line and
    the second header, and with no global type the second header is the
    last line. *)
Theorem summarize_schema_headers (w : World) (xsd_path : Path)
    (schema : XMLSchema) :
  open_schema (files w) xsd_path = inr schema →
  ∃ report,
    (summarize_schema xsd_path w).1 = inr report ∧
    contains report "Global elements:" ∧
    contains report "Global types:" ∧
    has_line report "Global elements:" ∧
    has_line report "Global types:" ∧
    (xs_elements schema = [] →
       ∃ before after,
         report = py_join nl
           (before ++ ["Global elements:"; ""; "Global types:"] ++ after)) ∧
    (xs_types schema = [] →
       ∃ before, report = py_join nl (before ++ ["Global types:"])).
Proof.
  intros Hopen. exists (py_join nl (report_lines xsd_path schema)).
  rewrite summarize_schema_run, Hopen. split; [done|].
  split; [apply contains_join, report_has_elements_header|].
  split; [apply contains_join, report_has_types_header|].
  split; [apply has_line_elem_of, report_has_elements_header|].
  split; [apply has_line_elem_of, report_has_types_header|].
  split.
  - intros Hnone.
    exists ["Schema: " +:+ path_str xsd_path;
            "Version: " +:+ version_str schema; ""],
      (map (λ '(qname, t), type_line qname t) (xs_types schema)).
    unfold report_lines. by rewrite Hnone.
  - intros Hnone.
    exists (["Schema: " +:+ path_str xsd_path;
             "Version: " +:+ version_str schema; ""; "Global elements:"]
            ++ map (λ '(qname, elem), element_line qname elem)
                 (xs_elements schema)
            ++ [""]).
    unfold report_lines. rewrite Hnone. simpl.
    by rewrite <- !app_assoc.
Qed.

End Summarizer.

Lemma summarize_schema_report_witness :
  (@summarize_schema demo_lib ["mini.xsd"] mini_world).1 =
    inr (py_join nl
           ["Schema: mini.xsd";
            "Version: None";
            "";
            "Global elements:";
            "- Root -> type={http://www.w3.org/2001/XMLSchema}string";
            "";
            "Global types:";
            "- CodeType (base={http://www.w3.org/2001/XMLSchema}string)"]) ∧
  contains mini_summary "Root" ∧ contains mini_summary "CodeType".
Proof.
  destruct (@summarize_schema_report demo_lib mini_world ["mini.xsd"]
              mini_schema)
    as (report & Hrun & Hreport & _ & _ & _ & _ & _ & Helems & Htypes).
  - reflexivity.
  - split; [rewrite Hrun, Hreport; reflexivity|].
    assert (report = mini_summary) as -> by (rewrite Hreport; reflexivity).
    split.
    + apply (Helems "Root" root_element). apply list_elem_of_here.
    + apply (Htypes "CodeType" (mkXsdType (Some "CodeType") (Some xs_string))).
      apply list_elem_of_here.
Defined.

Lemma summarize_schema_headers_witness :
  ∃ report,
    (@summarize_schema demo_lib ["empty.xsd"] empty_world).1 = inr report ∧
    contains report "Global elements:" ∧ contains report "Global types:".
Proof.
  destruct (@summarize_schema_headers demo_lib empty_world ["empty.xsd"]
              empty_schema)
    as (report & Hrun & Hel & Hty & _).
  - reflexivity.
  - exists report. by repeat split.
Defined.

(** ** The example generator *)

Section Generator.
Context {lib : XmlSchemaLib}.

Lemma py_truth_false {A} (m : list (string * A)) :
  negb (py_truth m) = true ↔ m = [].
Proof. by destruct m. Qed.

Lemma no_elements_msg_says_so :
  contains no_elements_msg "No global elements found".
Proof.
  exists "", " in schema; cannot generate example". reflexivity.
Qed.

Lemma elem_of_trace_log (ev ev' : Event) (w : World) :
  ev ∈ trace (log ev' w) ↔ ev ∈ trace w ∨ ev = ev'.
Proof. unfold log; simpl. rewrite elem_of_app, list_elem_of_singleton. done. Qed.

(** C3: for a schema with no global element, [generate_example_xml]
    raises the [ValueError] whose message says that no global elements
    were found, and it does so right after loading: the synthesis
    routine [to_etree] is not called. *)
Theorem generate_example_xml_no_elements (w : World) (xsd_path : Path)
    (schema : XMLSchema) :
  open_schema (files w) xsd_path = inr schema →
  xs_elements schema = [] →
  generate_example_xml xsd_path w =
    (inl (ValueError no_elements_msg), log (ELoadSchema xsd_path) w) ∧
  contains no_elements_msg "No global elements found" ∧
  trace (generate_example_xml xsd_path w).2 =
    trace w ++ [ELoadSchema xsd_path] ∧
  (∀ elem, EToEtree elem ∈ trace (generate_example_xml xsd_path w).2 →
           EToEtree elem ∈ trace w).
Proof.
  intros Hopen Hnone.
  assert (generate_example_xml xsd_path w =
          (inl (ValueError no_elements_msg), log (ELoadSchema xsd_path) w))
    as Hrun by (by rewrite generate_example_xml_run, Hopen, Hnone).
  split; [exact Hrun|]. split; [apply no_elements_msg_says_so|].
  rewrite Hrun. split; [done|].
  intros elem [Hin|Heq]%elem_of_trace_log; [done | discriminate].
Qed.

(** C8: on a loaded schema the guard of [generate_example_xml] fires
    exactly when the mapping of global elements is empty; when it is not
    empty, [next(iter(...))] yields the first key, the lookup of that key
    yields the first declaration, and the run goes on to the synthesis
    call with it: neither [StopIteration] nor [KeyError] nor the guard's
    [ValueError] comes out of these steps. *)
Theorem generate_example_xml_partial_ops_safe (w : World) (xsd_path : Path)
    (schema : XMLSchema) :
  open_schema (files w) xsd_path = inr schema →
  (negb (py_truth (xs_elements schema)) = true ↔ xs_elements schema = []) ∧
  (xs_elements schema = [] →
     generate_example_xml xsd_path w =
       (inl (ValueError no_elements_msg), log (ELoadSchema xsd_path) w)) ∧
  (xs_elements schema ≠ [] →
     ∃ root_qname elem rest,
       xs_elements schema = (root_qname, elem) :: rest ∧
       next_iter (xs_elements schema) = inr root_qname ∧
       getitem (xs_elements schema) root_qname = inr elem ∧
       generate_example_xml xsd_path w =
         (match to_etree elem with
          | inl e => inl e
          | inr example => inr (mkElementTree example)
          end,
          log (EToEtree elem) (log (ELoadSchema xsd_path) w))).
Proof.
  intros Hopen. split; [apply py_truth_false|]. split.
  - intros Hnone. by rewrite generate_example_xml_run, Hopen, Hnone.
  - intros Hsome.
    destruct (xs_elements schema) as [|[root_qname elem] rest] eqn:Hels;
      [done|].
    exists root_qname, elem, rest. split; [done|]. split; [done|].
    split; [apply getitem_head|].
    by rewrite generate_example_xml_run, Hopen, Hels.
Qed.

(** C5, the code against its own test: for a schema with at least one
    global element the first element of the mapping is selected and the
    call [to_etree()] on its declaration is reached, but the class
    [XsdElement] of the library has no method of that name: the call
    raises [AttributeError] and no tree is returned, so no root tag
    [Root] either, as the test of the repository expects it. *)
Theorem generate_example_xml_attribute_error (w : World) (xsd_path : Path)
    (schema : XMLSchema) (root_qname : string) (elem : XsdElement)
    (rest : list (string * XsdElement)) :
  xsd_element_to_etree = None →
  open_schema (files w) xsd_path = inr schema →
  xs_elements schema = (root_qname, elem) :: rest →
  generate_example_xml xsd_path w =
    (inl (AttributeError "'XsdElement' object has no attribute 'to_etree'"),
     log (EToEtree elem) (log (ELoadSchema xsd_path) w)) ∧
  (∀ tree, (generate_example_xml xsd_path w).1 ≠ inr tree).
Proof.
  intros Hmethod Hopen Hels.
  assert (generate_example_xml xsd_path w =
          (inl (AttributeError
                  "'XsdElement' object has no attribute 'to_etree'"),
           log (EToEtree elem) (log (ELoadSchema xsd_path) w))) as Hrun.
  { rewrite generate_example_xml_run, Hopen, Hels.
    unfold to_etree. by rewrite Hmethod. }
  split; [exact Hrun|]. intros tree. by rewrite Hrun.
Qed.

End Generator.

Lemma generate_example_xml_no_elements_witness :
  @generate_example_xml demo_lib ["empty.xsd"] empty_world =
  (inl (ValueError no_elements_msg), log (ELoadSchema ["empty.xsd"]) empty_world).
Proof.
  apply (@generate_example_xml_no_elements demo_lib empty_world ["empty.xsd"]
           empty_schema); reflexivity.
Defined.

Lemma generate_example_xml_partial_ops_safe_witness :
  ∃ root_qname elem,
    next_iter (xs_elements mini_schema) = inr root_qname ∧
    getitem (xs_elements mini_schema) root_qname = inr elem.
Proof.
  destruct (@generate_example_xml_partial_ops_safe demo_lib mini_world
              ["mini.xsd"] mini_schema) as (_ & _ & Hsome).
  - reflexivity.
  - destruct Hsome as (root_qname & elem & rest & _ & Hnext & Hget & _).
    + discriminate.
    + by exists root_qname, elem.
Defined.

Lemma generate_example_xml_attribute_error_witness :
  (@generate_example_xml demo_lib ["nested.xsd"] nested_world).1 =
    inl (AttributeError "'XsdElement' object has no attribute 'to_etree'") ∧
  (@generate_example_xml demo_lib ["mini.xsd"] mini_world).1 =
    inl (AttributeError "'XsdElement' object has no attribute 'to_etree'").
Proof.
  split.
  - destruct (@generate_example_xml_attribute_error demo_lib nested_world
                ["nested.xsd"] nested_schema "Root" nested_root [])
      as [Hrun _]; [reflexivity ..|].
    by rewrite Hrun.
  - destruct (@generate_example_xml_attribute_error demo_lib mini_world
                ["mini.xsd"] mini_schema "Root" root_element [])
      as [Hrun _]; [reflexivity ..|].
    by rewrite Hrun.
Defined.

(** * Further properties of the three functions *)

(** ** The summarizer *)

Lemma lookup_app_add {A} (l1 l2 : list A) (k : nat) :
  (l1 ++ l2) !! (length l1 + k) = l2 !! k.
Proof. rewrite lookup_app_r by lia. f_equal. lia. Qed.

Section SummarizerMore.
Context {lib : XmlSchemaLib}.

(** X1: [summarize_schema] raises exactly when loading the schema raises,
    and then with the loader's exception; in every case all it does to
    the world is the one load: no file, directory or console output
    changes. *)
Theorem summarize_schema_outcome (xsd_path : Path) (w : World) :
  (∀ e, (summarize_schema xsd_path w).1 = inl e ↔
        open_schema (files w) xsd_path = inl e) ∧
  trace (summarize_schema xsd_path w).2 = trace w ++ [ELoadSchema xsd_path] ∧
  files (summarize_schema xsd_path w).2 = files w ∧
  dirs (summarize_schema xsd_path w).2 = dirs w ∧
  console (summarize_schema xsd_path w).2 = console w ∧
  written (summarize_schema xsd_path w).2 = written w.
Proof.
  rewrite summarize_schema_run. cbn [fst snd]. split.
  { intros e. destruct (open_schema _ _) as [e'|schema].
    - split; by intros [= <-].
    - split; intros; discriminate. }
  split; [done|]. split; [done|]. split; [done|].
  by rewrite console_log_other, written_log_other.
Qed.

(** X2: the report has six fixed lines and one line per global element
    and per global type: the header [Global elements:] is line 3, the
    element of index [i] is on line [4 + i], the blank line and the
    header [Global types:] follow the last element, and the type of
    index [j] is on line [6 + n + j] for [n] elements. *)
Theorem summary_lines_layout (xsd_path : Path) (schema : XMLSchema) :
  let lines := summary_lines xsd_path schema in
  let n := length (xs_elements schema) in
  length lines = 6 + n + length (xs_types schema) ∧
  lines !! 0 = Some ("Schema: " +:+ path_str xsd_path) ∧
  lines !! 1 = Some ("Version: " +:+ version_str schema) ∧
  lines !! 2 = Some "" ∧
  lines !! 3 = Some "Global elements:" ∧
  (∀ i qname elem, xs_elements schema !! i = Some (qname, elem) →
     lines !! (4 + i) = Some (element_line qname elem)) ∧
  lines !! (4 + n) = Some "" ∧
  lines !! (5 + n) = Some "Global types:" ∧
  (∀ j qname t, xs_types schema !! j = Some (qname, t) →
     lines !! (6 + n + j) = Some (type_line qname t)).
Proof.
  intros lines n. subst lines n. rewrite summary_lines_eq. unfold report_lines.
  set (hd := ["Schema: " +:+ path_str xsd_path;
              "Version: " +:+ version_str schema; ""; "Global elements:"]).
  set (els := map (λ '(qname, elem), element_line qname elem)
                (xs_elements schema)).
  set (mid := [""; "Global types:"]).
  set (tys := map (λ '(qname, t), type_line qname t) (xs_types schema)).
  assert (length els = length (xs_elements schema)) as Hels
    by apply length_map.
  assert (length tys = length (xs_types schema)) as Htys by apply length_map.
  assert (∀ k, (hd ++ els ++ mid ++ tys) !! (4 + k) = (els ++ mid ++ tys) !! k)
    as Hhd by (intros k; apply (lookup_app_add hd)).
  assert (∀ k, (els ++ mid ++ tys) !! (length (xs_elements schema) + k)
               = (mid ++ tys) !! k) as Hmid
    by (intros k; rewrite <- Hels; apply lookup_app_add).
  split.
  { rewrite !length_app, Hels, Htys. simpl. lia. }
  do 4 (split; [done|]).
  split.
  { intros i qname elem Hi. rewrite Hhd.
    rewrite lookup_app_l by (rewrite Hels; by eapply lookup_lt_Some).
    subst els. by rewrite list_lookup_fmap, Hi. }
  split.
  { rewrite Hhd. rewrite <- (Nat.add_0_r (length _)). by rewrite Hmid. }
  split.
  { replace (5 + length (xs_elements schema))
      with (4 + (length (xs_elements schema) + 1)) by lia.
    by rewrite Hhd, Hmid. }
  intros j qname t Hj.
  replace (6 + length (xs_elements schema) + j)
    with (4 + (length (xs_elements schema) + (2 + j))) by lia.
  rewrite Hhd, Hmid. change ((mid ++ tys) !! (2 + j)) with (tys !! j).
  subst tys. by rewrite list_lookup_fmap, Hj.
Qed.

End SummarizerMore.

(** ** The example generator *)

Section GeneratorMore.
Context {lib : XmlSchemaLib}.

(** X3: [generate_example_xml] raises [e] in three cases only: loading
    the schema raises [e]; the schema has no global element and [e] is
    the [ValueError] of the guard; or the synthesis of the first global
    element raises [e].  The exceptions of the library pass unchanged. *)
Theorem generate_example_xml_outcome (xsd_path : Path) (w : World)
    (e : Exception) :
  (generate_example_xml xsd_path w).1 = inl e ↔
  open_schema (files w) xsd_path = inl e ∨
  (∃ schema,
     open_schema (files w) xsd_path = inr schema ∧
     xs_elements schema = [] ∧ e = ValueError no_elements_msg) ∨
  (∃ schema root_qname elem rest,
     open_schema (files w) xsd_path = inr schema ∧
     xs_elements schema = (root_qname, elem) :: rest ∧
     to_etree elem = inl e).
Proof.
  rewrite generate_example_xml_run.
  destruct (open_schema (files w) xsd_path) as [e'|schema] eqn:Hopen.
  { cbn [fst]. split.
    - intros [= <-]. by left.
    - intros [[= <-]|[(s & [=] & _)|(s & q & el & r & [=] & _)]]. done. }
  destruct (xs_elements schema) as [|[root_qname elem] rest] eqn:Hels.
  { cbn [fst]. split.
    - intros [= <-]. right; left. by exists schema.
    - intros [[=]|[(s & [= <-] & _ & ->)|(s & q & el & r & [= <-] & Hs & _)]];
        [done|]. by rewrite Hels in Hs. }
  cbn [fst]. split.
  - destruct (to_etree elem) as [e'|example] eqn:Hsyn; [|done].
    intros [= <-]. right; right. by exists schema, root_qname, elem, rest.
  - intros [[=]|[(s & [= <-] & Hs & _)|(s & q & el & r & [= <-] & Hs & Hsyn)]].
    + by rewrite Hels in Hs.
    + rewrite Hels in Hs. injection Hs as <- <- <-. by rewrite Hsyn.
Qed.

(** X4: only the first global element counts: two schemas whose first
    global element is the same declaration give the same outcome,
    whatever else they declare and wherever they were loaded from. *)
Theorem generate_example_xml_first_only (w1 w2 : World) (p1 p2 : Path)
    (s1 s2 : XMLSchema) (q1 q2 : string) (elem : XsdElement)
    (rest1 rest2 : list (string * XsdElement)) :
  open_schema (files w1) p1 = inr s1 →
  open_schema (files w2) p2 = inr s2 →
  xs_elements s1 = (q1, elem) :: rest1 →
  xs_elements s2 = (q2, elem) :: rest2 →
  (generate_example_xml p1 w1).1 = (generate_example_xml p2 w2).1.
Proof.
  intros Ho1 Ho2 He1 He2.
  by rewrite !generate_example_xml_run, Ho1, Ho2, He1, He2.
Qed.

End GeneratorMore.

Lemma generate_example_xml_first_only_witness :
  (@generate_example_xml two_lib ["mini.xsd"] two_world).1 =
  (@generate_example_xml two_lib ["two.xsd"] two_world).1.
Proof.
  apply (@generate_example_xml_first_only two_lib two_world two_world
           ["mini.xsd"] ["two.xsd"] mini_schema two_schema "Root" "Root"
           root_element [] [("Other", other_element)]);
    vm_compute; reflexivity.
Defined.


Lemma summary_lines_layout_witness :
  summary_lines ["mini.xsd"] mini_schema !! 4 =
    Some "- Root -> type={http://www.w3.org/2001/XMLSchema}string" ∧
  summary_lines ["mini.xsd"] mini_schema !! 7 =
    Some "- CodeType (base={http://www.w3.org/2001/XMLSchema}string)".
Proof.
  destruct (summary_lines_layout ["mini.xsd"] mini_schema)
    as (_ & _ & _ & _ & _ & Hel & _ & _ & Hty).
  split.
  - apply (Hel 0 "Root" root_element). reflexivity.
  - apply (Hty 0 "CodeType" (mkXsdType (Some "CodeType") (Some xs_string))).
    reflexivity.
Defined.

(** ** The file system calls *)

Lemma node_at_None (fs : gmap Path Node) (q : Path) :
  node_at fs q = None → fs !! q = None.
Proof. unfold node_at. by destruct (ambient q). Qed.

(** Resolution only depends on which directories there are. *)
Lemma walk_mono (fs fs' : gmap Path Node) (parts : list string)
    (cur q : Path) :
  (∀ x, node_at fs x = Some Dir → node_at fs' x = Some Dir) →
  walk fs cur parts = inr q → walk fs' cur parts = inr q.
Proof.
  intros Hdirs. revert cur.
  induction parts as [|part rest IH]; intros cur; simpl; [done|].
  destruct (node_at fs cur) as [[d|]|] eqn:Hcur; [done| |done].
  rewrite (Hdirs _ Hcur). apply IH.
Qed.

Lemma resolve_mono (fs fs' : gmap Path Node) (p q : Path) :
  (∀ x, node_at fs x = Some Dir → node_at fs' x = Some Dir) →
  resolve fs p = inr q → resolve fs' p = inr q.
Proof.
  intros Hdirs. unfold resolve. destruct p as [|part rest]; [done|].
  destruct (is_root part); by apply walk_mono.
Qed.

Lemma node_at_insert_dir (fs : gmap Path Node) (q x : Path) (n : Node) :
  node_at fs q ≠ Some Dir →
  node_at fs x = Some Dir → node_at (<[q := n]> fs) x = Some Dir.
Proof.
  unfold node_at. intros Hq. destruct (ambient x) eqn:Hx; [done|].
  intros Hdir. rewrite lookup_insert_ne; [done|].
  intros ->. rewrite Hx in Hq. done.
Qed.

Lemma os_mkdir_inr (fs fs' : gmap Path Node) (p : Path) :
  os_mkdir fs p = inr fs' →
  ∃ q, resolve fs p = inr q ∧ fs !! q = None ∧ ambient q = false ∧
       fs' = <[q := Dir]> fs.
Proof.
  unfold os_mkdir. destruct (resolve fs p) as [errno|q]; [done|].
  destruct (node_at fs q) as [n|] eqn:Hq; [done|]. intros [= <-].
  exists q. split; [done|]. split; [by apply node_at_None|]. split; [|done].
  unfold node_at in Hq. by destruct (ambient q).
Qed.

Lemma os_mkdir_is_dir (fs fs' : gmap Path Node) (p : Path) :
  os_mkdir fs p = inr fs' → is_dir_path fs' p = true.
Proof.
  intros (q & Hres & Hnone & Hamb & ->)%os_mkdir_inr.
  unfold is_dir_path, stat.
  rewrite (resolve_mono fs _ p q); [| |done].
  - unfold node_at. by rewrite Hamb, lookup_insert_eq.
  - intros x. apply node_at_insert_dir. unfold node_at.
    by rewrite Hamb, Hnone.
Qed.

Lemma only_new_dirs_refl (fs : gmap Path Node) : only_new_dirs fs fs.
Proof. intros q. by left. Qed.

Lemma only_new_dirs_trans (fs1 fs2 fs3 : gmap Path Node) :
  only_new_dirs fs1 fs2 → only_new_dirs fs2 fs3 → only_new_dirs fs1 fs3.
Proof.
  intros H12 H23 q. destruct (H12 q) as [E12|[E1 E2]], (H23 q) as [E23|[E2' E3]].
  - left. congruence.
  - right. split; congruence.
  - right. split; congruence.
  - congruence.
Qed.

Lemma os_mkdir_only_new_dirs (fs fs' : gmap Path Node) (p : Path) :
  os_mkdir fs p = inr fs' → only_new_dirs fs fs'.
Proof.
  intros (q & _ & Hnone & _ & ->)%os_mkdir_inr x.
  destruct (decide (x = q)) as [->|Hne].
  - right. by rewrite lookup_insert_eq.
  - left. by rewrite lookup_insert_ne.
Qed.

Lemma mkdir_rev_spec (fs : gmap Path Node) (rparts : list string) :
  only_new_dirs fs (mkdir_rev fs rparts).2 ∧
  ((mkdir_rev fs rparts).1 = inr tt →
   is_dir_path (mkdir_rev fs rparts).2 (rev rparts) = true).
Proof.
  revert fs. induction rparts as [|part rparent IH]; intros fs.
  - cbn [mkdir_rev].
    destruct (os_mkdir fs (rev [])) as [errno|fs'] eqn:Hmk.
    + destruct errno;
        try (destruct (is_dir_path fs (rev [])) eqn:Hdir);
        cbn [fst snd]; (split; [apply only_new_dirs_refl|done]).
    + cbn [fst snd]. split; [by eapply os_mkdir_only_new_dirs|].
      intros _. by eapply os_mkdir_is_dir.
  - cbn [mkdir_rev]. set (p := rev (part :: rparent)).
    destruct (os_mkdir fs p) as [errno|fs'] eqn:Hmk.
    + destruct errno.
      2,3,4: destruct (is_dir_path fs p) eqn:Hdir; cbn [fst snd];
               (split; [apply only_new_dirs_refl|done]).
      destruct (IH fs) as [Hnew _].
      destruct (mkdir_rev fs rparent) as [[e|[]] fs1]; cbn [fst snd] in *;
        [done|].
      destruct (os_mkdir fs1 p) as [errno|fs2] eqn:Hmk2.
      * destruct (is_dir_path fs1 p) eqn:Hdir; cbn [fst snd]; done.
      * cbn [fst snd]. split.
        -- eapply only_new_dirs_trans; [done|].
           by eapply os_mkdir_only_new_dirs.
        -- intros _. by eapply os_mkdir_is_dir.
    + cbn [fst snd]. split; [by eapply os_mkdir_only_new_dirs|].
      intros _. by eapply os_mkdir_is_dir.
Qed.

Lemma only_new_dirs_files (fs fs' : gmap Path Node) (q : Path) (d : FileData) :
  only_new_dirs fs fs' → (fs' !! q = Some (File d) ↔ fs !! q = Some (File d)).
Proof.
  intros Hnew. destruct (Hnew q) as [->|[Hq Hq']]; [done|].
  rewrite Hq, Hq'. split; intros; discriminate.
Qed.

(** What a call of [Path_mkdir] that returns has done. *)
Lemma Path_mkdir_returns (d : Path) (w w1 : World) :
  Path_mkdir d w = (inr tt, w1) →
  trace w1 = trace w ++ [EMkdir d] ∧
  is_dir_path (files w1) d = true ∧
  only_new_dirs (files w) (files w1).
Proof.
  unfold Path_mkdir, mkdir_parents.
  destruct (mkdir_rev_spec (files w) (rev d)) as [Hnew Hdir].
  destruct (mkdir_rev (files w) (rev d)) as [[e|[]] fs]; [done|].
  intros [= <-]. cbn [fst snd] in *. split; [done|]. split; [|done].
  rewrite rev_involutive in Hdir. by apply Hdir.
Qed.

(** What a call of [Path_mkdir] that raises has done. *)
Lemma Path_mkdir_raises (d : Path) (w w1 : World) (e : Exception) :
  Path_mkdir d w = (inl e, w1) →
  trace w1 = trace w ∧ only_new_dirs (files w) (files w1).
Proof.
  unfold Path_mkdir, mkdir_parents.
  destruct (mkdir_rev_spec (files w) (rev d)) as [Hnew _].
  destruct (mkdir_rev (files w) (rev d)) as [[e'|[]] fs]; [|done].
  by intros [= <- <-].
Qed.

Lemma os_write_read (fs fs' : gmap Path Node) (p : Path) (d : FileData) :
  os_write fs p d = inr fs' → read_file fs' p = inr d.
Proof.
  unfold os_write. destruct (resolve fs p) as [errno|q] eqn:Hres; [done|].
  destruct (node_at fs q) as [[d'|]|] eqn:Hq; [|done|]; intros [= <-].
  all: assert (ambient q = false) as Hamb
         by (unfold node_at in Hq; by destruct (ambient q)).
  all: unfold read_file, stat.
  all: rewrite (resolve_mono fs _ p q);
         [|intros x; apply node_at_insert_dir; by rewrite Hq|done].
  all: unfold node_at; by rewrite Hamb, lookup_insert_eq.
Qed.

(** What a call of [write_text] that returns has done. *)
Lemma write_text_returns (p : Path) (data encoding : string) (w w' : World) :
  write_text p data encoding w = (inr tt, w') →
  trace w' = trace w ++ [EWriteFile p (TextData data encoding)] ∧
  read_file (files w') p = inr (TextData data encoding).
Proof.
  unfold write_text.
  destruct (os_write (files w) p (TextData data encoding)) as [errno|fs] eqn:Hw;
    [done|].
  intros [= <-]. split; [done|]. by eapply os_write_read.
Qed.

Lemma write_text_raises (p : Path) (data encoding : string) (w w' : World)
    (e : Exception) :
  write_text p data encoding w = (inl e, w') → w' = w.
Proof.
  unfold write_text.
  destruct (os_write (files w) p (TextData data encoding)); [|done].
  by intros [= _ <-].
Qed.

Lemma tree_write_returns (tree : ElementTree) (p : Path) (decl : bool)
    (encoding : string) (pretty_print : bool) (w w' : World) :
  tree_write tree p decl encoding pretty_print w = (inr tt, w') →
  trace w' = trace w ++ [EWriteFile p (XmlData tree decl encoding pretty_print)] ∧
  read_file (files w') p = inr (XmlData tree decl encoding pretty_print).
Proof.
  unfold tree_write.
  destruct (os_write (files w) p _) as [errno|fs] eqn:Hw; [done|].
  intros [= <-]. split; [done|]. by eapply os_write_read.
Qed.

Lemma tree_write_raises (tree : ElementTree) (p : Path) (decl : bool)
    (encoding : string) (pretty_print : bool) (w w' : World) (e : Exception) :
  tree_write tree p decl encoding pretty_print w = (inl e, w') → w' = w.
Proof.
  unfold tree_write. destruct (os_write (files w) p _); [|done].
  by intros [= _ <-].
Qed.

Section Printing.
Context {rich : RichLib}.

Lemma print_returns (s : string) (w w' : World) :
  print s w = (inr tt, w') → w' = log (EPrint s) w.
Proof. unfold print. destruct (markup_error s); [done|]. by intros [= <-]. Qed.

Lemma print_raises (s : string) (w w' : World) (e : Exception) :
  print s w = (inl e, w') → w' = w ∧ markup_error s = Some e.
Proof.
  unfold print. destruct (markup_error s); [|done]. by intros [= <- <-].
Qed.

(** Printing changes no file and writes none, and what was printed
    before stays. *)
Lemma print_frame (s : string) (w : World) :
  files (print s w).2 = files w ∧
  writes (print s w).2 = writes w ∧
  written (print s w).2 = written w ∧
  ∃ more, console (print s w).2 = console w ++ more.
Proof.
  unfold print. destruct (markup_error s); cbn [snd].
  - repeat split; try done. exists []. by rewrite app_nil_r.
  - rewrite writes_log_other, written_log_other, console_log_print by done.
    repeat split; try done. by eexists.
Qed.

Lemma uncaught_print_frame (s : string) (w : World) :
  files (uncaught (print s) w).2 = files w ∧
  writes (uncaught (print s) w).2 = writes w ∧
  written (uncaught (print s) w).2 = written w ∧
  ∃ more, console (uncaught (print s) w).2 = console w ++ more.
Proof.
  pose proof (print_frame s w) as H. unfold uncaught.
  by destruct (print s w) as [[e|[]] w'].
Qed.

End Printing.

(** ** The driver, step by step *)

Section DriverSteps.
Context {lib : XmlSchemaLib} {rich : RichLib}.

Lemma summarize_schema_world (p : Path) (w w' : World)
    (r : Exception + string) :
  summarize_schema p w = (r, w') → w' = log (ELoadSchema p) w.
Proof. rewrite summarize_schema_run. by intros [= _ <-]. Qed.

(** Generation reads the files, and adds to the trace only. *)
Lemma generate_example_xml_frame (p : Path) (w w' : World)
    (r : Exception + ElementTree) :
  generate_example_xml p w = (r, w') →
  files w' = files w ∧ console w' = console w ∧
  writes w' = writes w ∧ written w' = written w.
Proof.
  rewrite generate_example_xml_run.
  destruct (open_schema _ _) as [e|schema];
    [|destruct (xs_elements schema) as [|[q elem] rest]];
    intros [= <- <-]; repeat split;
    rewrite ?written_log_other, ?writes_log_other, ?console_log_other; done.
Qed.

Lemma main_mkdir_raises (xsd : string) (out : option string) (w w1 : World)
    (e : Exception) :
  Path_mkdir (out_dir_of out) w = (inl e, w1) →
  main xsd out w = (inl (Exc e), w1).
Proof. intros Hmk. unfold_stations. by run_main. Qed.

Lemma main_not_found (xsd : string) (out : option string) (w w1 : World) :
  Path_mkdir (out_dir_of out) w = (inr tt, w1) →
  path_exists w1 (PurePath xsd) = false →
  main xsd out w = (inl (SystemExit (not_found_msg (PurePath xsd))), w1).
Proof. intros Hmk Hex. unfold_stations. by run_main. Qed.

Lemma main_banner_raises (xsd : string) (out : option string) (w w1 w2 : World)
    (e : Exception) :
  Path_mkdir (out_dir_of out) w = (inr tt, w1) →
  path_exists w1 (PurePath xsd) = true →
  print (analyzing_msg (PurePath xsd)) w1 = (inl e, w2) →
  main xsd out w = (inl (Exc e), w2).
Proof. intros Hmk Hex Hpr. unfold_stations. by run_main. Qed.

Lemma main_summary_raises (xsd : string) (out : option string) (w w2 w3 : World)
    (e : Exception) :
  validated_run xsd out w w2 →
  summarize_schema (PurePath xsd) w2 = (inl e, w3) →
  main xsd out w = (inl (Exc e), w3).
Proof. intros (w1 & Hmk & Hex & Hpr) Hsum. unfold_stations. by run_main. Qed.

Lemma main_write_raises (xsd : string) (out : option string)
    (w w2 w3 w4 : World) (summary : string) (e : Exception) :
  validated_run xsd out w w2 →
  summarize_schema (PurePath xsd) w2 = (inr summary, w3) →
  write_text (summary_path (out_dir_of out)) summary "utf-8" w3 = (inl e, w4) →
  main xsd out w = (inl (Exc e), w4).
Proof.
  intros (w1 & Hmk & Hex & Hpr) Hsum Hwr. unfold_stations. by run_main.
Qed.

Lemma main_summary_message_raises (xsd : string) (out : option string)
    (w w2 w3 w4 w5 : World) (summary : string) (e : Exception) :
  validated_run xsd out w w2 →
  summarize_schema (PurePath xsd) w2 = (inr summary, w3) →
  write_text (summary_path (out_dir_of out)) summary "utf-8" w3 = (inr tt, w4) →
  print "- Wrote out/schema_summary.txt" w4 = (inl e, w5) →
  main xsd out w = (inl (Exc e), w5).
Proof.
  intros (w1 & Hmk & Hex & Hpr) Hsum Hwr Hpr2. unfold_stations. by run_main.
Qed.

(** From the world [w5] on, [main] is its [try] statement. *)
Lemma main_generation_raises (xsd : string) (out : option string)
    (w w5 w6 : World) (summary : string) (e : Exception) :
  summarized_run xsd out w summary w5 →
  generate_example_xml (PurePath xsd) w5 = (inl e, w6) →
  main xsd out w = uncaught (print (skipped_msg e)) w6.
Proof.
  intros (w2 & w3 & w4 & (w1 & Hmk & Hex & Hpr) & Hsum & Hwr & Hpr2) Hgen.
  unfold_stations. by run_main.
Qed.

Lemma main_example_write_raises (xsd : string) (out : option string)
    (w w5 w6 w7 : World) (summary : string) (tree : ElementTree)
    (e : Exception) :
  summarized_run xsd out w summary w5 →
  generate_example_xml (PurePath xsd) w5 = (inr tree, w6) →
  tree_write tree (example_path (out_dir_of out)) true "utf-8" true w6
    = (inl e, w7) →
  main xsd out w = uncaught (print (skipped_msg e)) w7.
Proof.
  intros (w2 & w3 & w4 & (w1 & Hmk & Hex & Hpr) & Hsum & Hwr & Hpr2) Hgen Hxml.
  unfold_stations. by run_main.
Qed.

Lemma main_example_message_raises (xsd : string) (out : option string)
    (w w5 w6 w7 w8 : World) (summary : string) (tree : ElementTree)
    (e : Exception) :
  summarized_run xsd out w summary w5 →
  generate_example_xml (PurePath xsd) w5 = (inr tree, w6) →
  tree_write tree (example_path (out_dir_of out)) true "utf-8" true w6
    = (inr tt, w7) →
  print "- Wrote out/example.xml" w7 = (inl e, w8) →
  main xsd out w = uncaught (print (skipped_msg e)) w8.
Proof.
  intros (w2 & w3 & w4 & (w1 & Hmk & Hex & Hpr) & Hsum & Hwr & Hpr2)
    Hgen Hxml Hpr3.
  unfold_stations. by run_main.
Qed.

Lemma main_example_written (xsd : string) (out : option string)
    (w w5 w6 w7 w8 : World) (summary : string) (tree : ElementTree) :
  summarized_run xsd out w summary w5 →
  generate_example_xml (PurePath xsd) w5 = (inr tree, w6) →
  tree_write tree (example_path (out_dir_of out)) true "utf-8" true w6
    = (inr tt, w7) →
  print "- Wrote out/example.xml" w7 = (inr tt, w8) →
  main xsd out w = (inr tt, w8).
Proof.
  intros (w2 & w3 & w4 & (w1 & Hmk & Hex & Hpr) & Hsum & Hwr & Hpr2)
    Hgen Hxml Hpr3.
  unfold_stations. by run_main.
Qed.

(** What the stations have done. *)
Lemma validated_run_trace (xsd : string) (out : option string) (w w2 : World) :
  validated_run xsd out w w2 →
  trace w2 = trace w ++ [EMkdir (out_dir_of out);
                         EPrint (analyzing_msg (PurePath xsd))] ∧
  only_new_dirs (files w) (files w2) ∧
  is_dir_path (files w2) (out_dir_of out) = true.
Proof.
  intros (w1 & (Htr & Hdir & Hnew)%Path_mkdir_returns & _
          & ->%print_returns).
  cbn [log trace files]. rewrite Htr, <- app_assoc. done.
Qed.

Lemma summarized_run_trace (xsd : string) (out : option string) (w w5 : World)
    (summary : string) :
  summarized_run xsd out w summary w5 →
  trace w5 =
    trace w ++ [EMkdir (out_dir_of out);
                EPrint (analyzing_msg (PurePath xsd));
                ELoadSchema (PurePath xsd);
                EWriteFile (summary_path (out_dir_of out))
                  (TextData summary "utf-8");
                EPrint "- Wrote out/schema_summary.txt"] ∧
  read_file (files w5) (summary_path (out_dir_of out))
    = inr (TextData summary "utf-8").
Proof.
  intros (w2 & w3 & w4 & (Htr2 & _)%validated_run_trace
          & ->%summarize_schema_world & (Htr4 & Hread)%write_text_returns
          & ->%print_returns).
  cbn [log trace files] in *. rewrite Htr4, Htr2, <- !app_assoc. done.
Qed.

Lemma console_of_trace (w w' : World) (evs : list Event) :
  trace w' = trace w ++ evs →
  console w' =
    console w ++
    omap (λ ev, match ev with EPrint s => Some s | _ => None end) evs.
Proof. unfold console. intros ->. by rewrite omap_app. Qed.

Lemma writes_of_trace (w w' : World) (evs : list Event) :
  trace w' = trace w ++ evs →
  writes w' =
    writes w ++
    omap (λ ev, match ev with EWriteFile p d => Some (p, d) | _ => None end)
      evs.
Proof. unfold writes. intros ->. by rewrite omap_app. Qed.

Lemma written_of_trace (w w' : World) (evs : list Event) :
  trace w' = trace w ++ evs →
  written w' =
    written w ++
    omap (λ ev, match ev with EWriteFile p _ => Some p | _ => None end) evs.
Proof. unfold written. intros ->. by rewrite omap_app. Qed.

End DriverSteps.

(** ** The driver: error policy and artifacts *)

Lemma run_eq {E A} (x : (E + A) * World) (r : E + A) :
  x.1 = r → x = (r, x.2).
Proof. intros <-. by destruct x. Qed.

Section DriverPolicy.
Context {lib : XmlSchemaLib} {rich : RichLib}.

(** The stations, from the outcome of each step. *)
Lemma validated_run_intro (xsd : string) (out : option string) (w : World) :
  let r1 := Path_mkdir (out_dir_of out) w in
  let r2 := print (analyzing_msg (PurePath xsd)) r1.2 in
  r1.1 = inr tt →
  path_exists r1.2 (PurePath xsd) = true →
  r2.1 = inr tt →
  validated_run xsd out w r2.2.
Proof.
  intros r1 r2 H1 Hex H2. exists r1.2.
  split; [by apply run_eq|]. split; [done|]. by apply run_eq.
Qed.

Lemma summarized_run_intro (xsd : string) (out : option string) (w : World)
    (summary : string) :
  let r1 := Path_mkdir (out_dir_of out) w in
  let r2 := print (analyzing_msg (PurePath xsd)) r1.2 in
  let r3 := summarize_schema (PurePath xsd) r2.2 in
  let r4 := write_text (summary_path (out_dir_of out)) summary "utf-8" r3.2 in
  let r5 := print "- Wrote out/schema_summary.txt" r4.2 in
  r1.1 = inr tt →
  path_exists r1.2 (PurePath xsd) = true →
  r2.1 = inr tt →
  r3.1 = inr summary →
  r4.1 = inr tt →
  r5.1 = inr tt →
  summarized_run xsd out w summary r5.2.
Proof.
  intros r1 r2 r3 r4 r5 H1 Hex H2 H3 H4 H5. exists r2.2, r3.2, r4.2.
  split; [by apply validated_run_intro|].
  split; [by apply run_eq|]. split; by apply run_eq.
Qed.

(** C2: once a run has got as far as example generation, an exception
    that generation raises is caught: the warning with its text is
    printed and, the warning printed, [main] ends normally, exit status
    0.  An exception that summarization raises leaves [main]: the exit
    status is not 0 and the run has stopped after the summarizer's load
    of the schema, before any write, any second load and any call of
    the synthesis routine. *)
Theorem main_error_policy (w : World) (xsd : string) (out : option string) :
  (∀ summary w5 e w6 w7,
     summarized_run xsd out w summary w5 →
     generate_example_xml (PurePath xsd) w5 = (inl e, w6) →
     print ("[yellow]- Skipped example XML generation: " +:+ exn_str e) w6
       = (inr tt, w7) →
     main xsd out w = (inr tt, w7) ∧
     exit_status (main xsd out w).1 = 0 ∧
     console (main xsd out w).2 =
       console w ++
       ["[bold]Analyzing[/bold] " +:+ path_str (PurePath xsd);
        "- Wrote out/schema_summary.txt";
        "[yellow]- Skipped example XML generation: " +:+ exn_str e]) ∧
  (∀ w2 e w3,
     validated_run xsd out w w2 →
     summarize_schema (PurePath xsd) w2 = (inl e, w3) →
     main xsd out w = (inl (Exc e), w3) ∧
     exit_status (main xsd out w).1 ≠ 0 ∧
     trace (main xsd out w).2 =
       trace w ++
       [EMkdir (out_dir_of out);
        EPrint ("[bold]Analyzing[/bold] " +:+ path_str (PurePath xsd));
        ELoadSchema (PurePath xsd)]).
Proof.
  split.
  - intros summary w5 e w6 w7 Hrun Hgen Hwarn.
    assert (main xsd out w = (inr tt, w7)) as Hmain.
    { rewrite (main_generation_raises _ _ _ _ _ _ _ Hrun Hgen).
      unfold uncaught, skipped_msg. by rewrite Hwarn. }
    rewrite Hmain. cbn [fst snd]. split; [done|]. split; [done|].
    apply print_returns in Hwarn as ->.
    apply generate_example_xml_frame in Hgen as (_ & Hcon & _).
    rewrite console_log_print, Hcon.
    apply summarized_run_trace in Hrun as [Htr _].
    rewrite (console_of_trace _ _ _ Htr). cbn [omap]. by rewrite <- app_assoc.
  - intros w2 e w3 Hrun Hsum.
    rewrite (main_summary_raises _ _ _ _ _ _ Hrun Hsum). cbn [fst snd].
    split; [done|]. split; [done|].
    apply summarize_schema_world in Hsum as ->.
    apply validated_run_trace in Hrun as [Htr _].
    cbn [log trace]. by rewrite Htr, <- app_assoc.
Qed.

(** C4, as the code has it: the output directory is made first, then
    the schema path is looked for.  When it is not there then, the run
    ends with a non-zero exit status and the diagnostic
    [XSD not found: path], with nothing printed and no file written or
    changed; the output directory, made with its missing parents, stays
    behind. *)
Theorem main_missing_schema (w w1 : World) (xsd : string)
    (out : option string) :
  Path_mkdir (out_dir_of out) w = (inr tt, w1) →
  path_exists w1 (PurePath xsd) = false →
  main xsd out w =
    (inl (SystemExit ("XSD not found: " +:+ path_str (PurePath xsd))), w1) ∧
  exit_status (main xsd out w).1 ≠ 0 ∧
  diagnostic (main xsd out w).1 =
    Some ("XSD not found: " +:+ path_str (PurePath xsd)) ∧
  trace (main xsd out w).2 = trace w ++ [EMkdir (out_dir_of out)] ∧
  console (main xsd out w).2 = console w ∧
  writes (main xsd out w).2 = writes w ∧
  is_dir_path (files (main xsd out w).2) (out_dir_of out) = true ∧
  (∀ q data, files (main xsd out w).2 !! q = Some (File data) ↔
             files w !! q = Some (File data)).
Proof.
  intros Hmk Hex. rewrite (main_not_found _ _ _ _ Hmk Hex). cbn [fst snd].
  apply Path_mkdir_returns in Hmk as (Htr & Hdir & Hnew).
  split; [done|]. split; [done|]. split; [done|]. split; [done|].
  split; [rewrite (console_of_trace _ _ _ Htr); apply app_nil_r|].
  split; [rewrite (writes_of_trace _ _ _ Htr); apply app_nil_r|].
  split; [done|]. intros q data. by apply only_new_dirs_files.
Qed.

(** C6, as the code has it: a run on a schema path that is not there
    once the output directory has been made, and a run in which the
    output directory cannot be made, end with a non-zero exit status
    and write no file: neither [schema_summary.txt] nor [example.xml],
    nor any other. *)
Theorem main_missing_schema_writes_nothing (w w1 : World) (xsd : string)
    (out : option string) :
  (Path_mkdir (out_dir_of out) w = (inr tt, w1) ∧
   path_exists w1 (PurePath xsd) = false) ∨
  (∃ e, Path_mkdir (out_dir_of out) w = (inl e, w1)) →
  (main xsd out w).2 = w1 ∧
  exit_status (main xsd out w).1 ≠ 0 ∧
  writes (main xsd out w).2 = writes w ∧
  console (main xsd out w).2 = console w ∧
  (∀ q data, files (main xsd out w).2 !! q = Some (File data) ↔
             files w !! q = Some (File data)).
Proof.
  intros [[Hmk Hex]|[e Hmk]].
  - rewrite (main_not_found _ _ _ _ Hmk Hex). cbn [fst snd].
    apply Path_mkdir_returns in Hmk as (Htr & _ & Hnew).
    split; [done|]. split; [done|].
    split; [rewrite (writes_of_trace _ _ _ Htr); apply app_nil_r|].
    split; [rewrite (console_of_trace _ _ _ Htr); apply app_nil_r|].
    intros q data. by apply only_new_dirs_files.
  - rewrite (main_mkdir_raises _ _ _ _ _ Hmk). cbn [fst snd].
    apply Path_mkdir_raises in Hmk as (Htr & Hnew).
    split; [done|]. split; [done|].
    unfold writes, console. rewrite Htr. split; [done|]. split; [done|].
    intros q data. by apply only_new_dirs_files.
Qed.

(** C7, as the code has it: once the summarizer has returned and its
    report is written and announced, the report is what
    [schema_summary.txt] in the output directory holds, as UTF-8 text.
    After that the run writes [example.xml], with an XML declaration,
    UTF-8, pretty-printed, exactly when generation returns a tree and
    the file can be written; when generation raises, or the write of
    the example does, the summary is the only file the run has written
    and the file system is as the summary write left it: an
    [example.xml] is neither made nor changed nor removed. *)
Theorem main_artifacts (w w5 : World) (xsd : string) (out : option string)
    (summary : string) :
  summarized_run xsd out w summary w5 →
  writes w5 =
    writes w ++ [(out_dir_of out </> "schema_summary.txt",
                  TextData summary "utf-8")] ∧
  read_file (files w5) (out_dir_of out </> "schema_summary.txt") =
    inr (TextData summary "utf-8") ∧
  (∀ e w6,
     generate_example_xml (PurePath xsd) w5 = (inl e, w6) →
     writes (main xsd out w).2 = writes w5 ∧
     files (main xsd out w).2 = files w5) ∧
  (∀ tree w6 e w7,
     generate_example_xml (PurePath xsd) w5 = (inr tree, w6) →
     tree_write tree (out_dir_of out </> "example.xml") true "utf-8" true w6
       = (inl e, w7) →
     writes (main xsd out w).2 = writes w5 ∧
     files (main xsd out w).2 = files w5) ∧
  (∀ tree w6 w7,
     generate_example_xml (PurePath xsd) w5 = (inr tree, w6) →
     tree_write tree (out_dir_of out </> "example.xml") true "utf-8" true w6
       = (inr tt, w7) →
     writes (main xsd out w).2 =
       writes w5 ++ [(out_dir_of out </> "example.xml",
                      XmlData tree true "utf-8" true)] ∧
     read_file (files (main xsd out w).2) (out_dir_of out </> "example.xml") =
       inr (XmlData tree true "utf-8" true)).
Proof.
  intros Hrun. fold (summary_path (out_dir_of out)).
  fold (example_path (out_dir_of out)).
  pose proof (summarized_run_trace _ _ _ _ _ Hrun) as [Htr Hread].
  split; [by rewrite (writes_of_trace _ _ _ Htr)|]. split; [exact Hread|].
  split; [|split].
  - intros e w6 Hgen.
    rewrite (main_generation_raises _ _ _ _ _ _ _ Hrun Hgen).
    destruct (uncaught_print_frame (skipped_msg e) w6) as (-> & -> & _).
    by apply generate_example_xml_frame in Hgen as (-> & _ & -> & _).
  - intros tree w6 e w7 Hgen Hxml.
    rewrite (main_example_write_raises _ _ _ _ _ _ _ _ _ Hrun Hgen Hxml).
    destruct (uncaught_print_frame (skipped_msg e) w7) as (-> & -> & _).
    apply tree_write_raises in Hxml as ->.
    by apply generate_example_xml_frame in Hgen as (-> & _ & -> & _).
  - intros tree w6 w7 Hgen Hxml.
    assert (files (main xsd out w).2 = files w7 ∧
            writes (main xsd out w).2 = writes w7) as [-> ->].
    { destruct (print "- Wrote out/example.xml" w7) as [[e|[]] w8] eqn:Hpr.
      - rewrite (main_example_message_raises _ _ _ _ _ _ _ _ _ _
                   Hrun Hgen Hxml Hpr).
        destruct (uncaught_print_frame (skipped_msg e) w8) as (-> & -> & _).
        by apply print_raises in Hpr as [-> _].
      - rewrite (main_example_written _ _ _ _ _ _ _ _ _ Hrun Hgen Hxml Hpr).
        apply print_returns in Hpr as ->. cbn [snd log files].
        by rewrite writes_log_other. }
    apply tree_write_returns in Hxml as [Htr7 Hread7].
    split; [|exact Hread7].
    rewrite (writes_of_trace _ _ _ Htr7). cbn [omap].
    by apply generate_example_xml_frame in Hgen as (_ & _ & -> & _).
Qed.

(** C10: whatever [--out] is, the message that follows the write of the
    summary is the fixed string [- Wrote out/schema_summary.txt], while
    the file is written under the given output directory; it is printed
    in every run that gets that far and stays on the console whatever
    generation does.  In the same way the message that follows the
    write of the example is [- Wrote out/example.xml], and the example
    is written under the given directory. *)
Theorem main_progress_messages_name_out (w w5 : World) (xsd : string)
    (out : option string) (summary : string) :
  summarized_run xsd out w summary w5 →
  console w5 =
    console w ++ ["[bold]Analyzing[/bold] " +:+ path_str (PurePath xsd);
                  "- Wrote out/schema_summary.txt"] ∧
  writes w5 =
    writes w ++ [(PurePath (default "out" out) </> "schema_summary.txt",
                  TextData summary "utf-8")] ∧
  (∃ more, console (main xsd out w).2 = console w5 ++ more) ∧
  (∀ tree w6 w7 w8,
     generate_example_xml (PurePath xsd) w5 = (inr tree, w6) →
     tree_write tree (PurePath (default "out" out) </> "example.xml")
       true "utf-8" true w6 = (inr tt, w7) →
     print "- Wrote out/example.xml" w7 = (inr tt, w8) →
     main xsd out w = (inr tt, w8) ∧
     console w8 = console w5 ++ ["- Wrote out/example.xml"] ∧
     writes w8 =
       writes w5 ++ [(PurePath (default "out" out) </> "example.xml",
                      XmlData tree true "utf-8" true)]).
Proof.
  intros Hrun. fold (out_dir_of out).
  fold (summary_path (out_dir_of out)). fold (example_path (out_dir_of out)).
  pose proof (summarized_run_trace _ _ _ _ _ Hrun) as [Htr _].
  split; [by rewrite (console_of_trace _ _ _ Htr)|].
  split; [by rewrite (writes_of_trace _ _ _ Htr)|].
  split.
  - destruct (generate_example_xml (PurePath xsd) w5) as [[e|tree] w6] eqn:Hgen.
    { rewrite (main_generation_raises _ _ _ _ _ _ _ Hrun Hgen).
      destruct (uncaught_print_frame (skipped_msg e) w6) as (_ & _ & _ & Hmore).
      by apply generate_example_xml_frame in Hgen as (_ & <- & _). }
    apply generate_example_xml_frame in Hgen as Hframe.
    destruct Hframe as (_ & Hcon6 & _). rewrite <- Hcon6.
    destruct (tree_write tree (example_path (out_dir_of out)) true "utf-8"
                true w6) as [[e|[]] w7] eqn:Hxml.
    { rewrite (main_example_write_raises _ _ _ _ _ _ _ _ _ Hrun Hgen Hxml).
      destruct (uncaught_print_frame (skipped_msg e) w7) as (_ & _ & _ & Hmore).
      by apply tree_write_raises in Hxml as ->. }
    assert (console w7 = console w6) as Hcon7.
    { apply tree_write_returns in Hxml as [Htr7 _].
      rewrite (console_of_trace _ _ _ Htr7). apply app_nil_r. }
    rewrite <- Hcon7.
    destruct (print "- Wrote out/example.xml" w7) as [[e|[]] w8] eqn:Hpr.
    + rewrite (main_example_message_raises _ _ _ _ _ _ _ _ _ _
                 Hrun Hgen Hxml Hpr).
      destruct (uncaught_print_frame (skipped_msg e) w8) as (_ & _ & _ & Hmore).
      by apply print_raises in Hpr as [-> _].
    + rewrite (main_example_written _ _ _ _ _ _ _ _ _ Hrun Hgen Hxml Hpr).
      apply print_returns in Hpr as ->. cbn [snd].
      rewrite console_log_print. by eexists.
  - intros tree w6 w7 w8 Hgen Hxml Hpr.
    split; [by apply (main_example_written _ _ _ _ _ _ _ _ _ Hrun Hgen Hxml)|].
    apply print_returns in Hpr as ->.
    apply tree_write_returns in Hxml as [Htr7 _].
    apply generate_example_xml_frame in Hgen as (_ & Hcon6 & Hwr6 & _).
    rewrite console_log_print, writes_log_other by done.
    rewrite (console_of_trace _ _ _ Htr7), (writes_of_trace _ _ _ Htr7).
    cbn [omap]. by rewrite app_nil_r, Hcon6, Hwr6.
Qed.

End DriverPolicy.

(** *** Concrete runs *)

Lemma main_error_policy_witness :
  (exit_status (@main demo_lib rich_markup "mini.xsd" None mini_world).1 = 0 ∧
   console (@main demo_lib rich_markup "mini.xsd" None mini_world).2 =
     ["[bold]Analyzing[/bold] mini.xsd";
      "- Wrote out/schema_summary.txt";
      "[yellow]- Skipped example XML generation: 'XsdElement' object has no attribute 'to_etree'"]) ∧
  (exit_status (@main demo_lib rich_markup "broken.xsd" None broken_world).1 ≠ 0 ∧
   trace (@main demo_lib rich_markup "broken.xsd" None broken_world).2 =
     [EMkdir ["out"]; EPrint "[bold]Analyzing[/bold] broken.xsd";
      ELoadSchema ["broken.xsd"]]).
Proof.
  split.
  - opose proof (proj1 (@main_error_policy demo_lib rich_markup mini_world
                          "mini.xsd" None)
                   mini_summary _
                   (AttributeError
                      "'XsdElement' object has no attribute 'to_etree'")
                   _ _ _ _ _) as (_ & Hexit & Hcon).
    + apply (@summarized_run_intro demo_lib rich_markup); vm_compute; reflexivity.
    + apply run_eq; vm_compute; reflexivity.
    + apply run_eq; vm_compute; reflexivity.
    + split; [exact Hexit|exact Hcon].
  - opose proof (proj2 (@main_error_policy demo_lib rich_markup broken_world
                          "broken.xsd" None)
                   _ (LibraryError "XMLSchemaParseError" "not an XSD schema")
                   _ _ _) as (_ & Hexit & Htr).
    + apply (validated_run_intro (rich:=rich_markup)); vm_compute; reflexivity.
    + apply run_eq; vm_compute; reflexivity.
    + split; [exact Hexit|exact Htr].
Defined.

(** C4, refuted as stated: on the missing path [missing.xsd] the run ends
    with the diagnostic, and the directory [out], which was not there
    before, is there after: the run has a file system side effect, the
    directory having been made before the path was looked for. *)
Lemma mkdir_precedes_validation :
  path_exists blank_world (PurePath "missing.xsd") = false ∧
  (@main demo_lib rich_markup "missing.xsd" None blank_world).1 =
    inl (SystemExit "XSD not found: missing.xsd") ∧
  trace (@main demo_lib rich_markup "missing.xsd" None blank_world).2 =
    [EMkdir ["out"]] ∧
  is_dir_path (files blank_world) (PurePath "out") = false ∧
  is_dir_path (files (@main demo_lib rich_markup "missing.xsd" None
                        blank_world).2) (PurePath "out") = true ∧
  files (@main demo_lib rich_markup "missing.xsd" None blank_world).2 ≠
    files blank_world.
Proof.
  repeat (split; [vm_compute; reflexivity|]).
  intros Heq. apply (f_equal (λ fs, fs !! ["out"])) in Heq.
  vm_compute in Heq. discriminate Heq.
Qed.

Lemma main_missing_schema_witness :
  (@main demo_lib rich_markup "missing.xsd" None blank_world).1 =
    inl (SystemExit "XSD not found: missing.xsd") ∧
  console (@main demo_lib rich_markup "missing.xsd" None blank_world).2 = [] ∧
  writes (@main demo_lib rich_markup "missing.xsd" None blank_world).2 = [] ∧
  is_dir_path (files (@main demo_lib rich_markup "missing.xsd" None
                        blank_world).2) ["out"] = true.
Proof.
  opose proof (@main_missing_schema demo_lib rich_markup blank_world _
                 "missing.xsd" None _ _)
    as (Hmain & _ & _ & _ & Hcon & Hwr & Hdir & _).
  - apply run_eq; vm_compute; reflexivity.
  - vm_compute; reflexivity.
  - rewrite Hmain in *. by repeat split.
Defined.

(** C6, refuted as stated: in a world without a directory [out] the
    path [out/../mini.xsd] names nothing; the run makes [out] first,
    the path then names the schema [mini.xsd], and the run ends with
    exit status 0 and has written the summary. *)
Lemma missing_path_made_by_mkdir :
  path_exists mini_world (PurePath "out/../mini.xsd") = false ∧
  exit_status (@main demo_lib rich_markup "out/../mini.xsd" None
                 mini_world).1 = 0 ∧
  writes (@main demo_lib rich_markup "out/../mini.xsd" None mini_world).2 =
    [(["out"; "schema_summary.txt"],
      TextData (py_join nl (report_lines ["out"; ".."; "mini.xsd"] mini_schema))
        "utf-8")] ∧
  dir_has (files (@main demo_lib rich_markup "out/../mini.xsd" None
                    mini_world).2) ["out"] "schema_summary.txt".
Proof.
  repeat (split; [vm_compute; reflexivity|]).
  eexists. vm_compute. reflexivity.
Qed.

Lemma main_missing_schema_writes_nothing_witness :
  (exit_status (@main demo_lib rich_markup "missing.xsd" None blank_world).1 ≠ 0 ∧
   writes (@main demo_lib rich_markup "missing.xsd" None blank_world).2 = []) ∧
  (exit_status (@main demo_lib rich_markup "mini.xsd" (Some "mini.xsd")
                  mini_world).1 ≠ 0 ∧
   writes (@main demo_lib rich_markup "mini.xsd" (Some "mini.xsd")
             mini_world).2 = []).
Proof.
  split.
  - opose proof (@main_missing_schema_writes_nothing demo_lib rich_markup
                   blank_world _ "missing.xsd" None (or_introl (conj _ _)))
      as (_ & Hexit & Hwr & _).
    + apply run_eq; vm_compute; reflexivity.
    + vm_compute; reflexivity.
    + split; [exact Hexit|exact Hwr].
  - opose proof (@main_missing_schema_writes_nothing demo_lib rich_markup
                   mini_world _ "mini.xsd" (Some "mini.xsd")
                   (or_intror (ex_intro _ (OSError EEXIST "mini.xsd") _)))
      as (_ & Hexit & Hwr & _).
    + apply run_eq; vm_compute; reflexivity.
    + split; [exact Hexit|exact Hwr].
Defined.

(** C7, refuted as stated: the output directory holds an [example.xml]
    of an earlier run; the schema has no global element, so generation
    fails; the run ends normally, and after it the directory holds
    [example.xml] as well as [schema_summary.txt]. *)
Lemma stale_example_survives :
  (@main demo_lib rich_markup "empty.xsd" None stale_world).1 = inr tt ∧
  console (@main demo_lib rich_markup "empty.xsd" None stale_world).2 =
    ["[bold]Analyzing[/bold] empty.xsd";
     "- Wrote out/schema_summary.txt";
     "[yellow]- Skipped example XML generation: No global elements found in schema; cannot generate example"] ∧
  writes (@main demo_lib rich_markup "empty.xsd" None stale_world).2 =
    [(["out"; "schema_summary.txt"], TextData empty_summary "utf-8")] ∧
  dir_has (files (@main demo_lib rich_markup "empty.xsd" None stale_world).2)
    ["out"] "schema_summary.txt" ∧
  dir_has (files (@main demo_lib rich_markup "empty.xsd" None stale_world).2)
    ["out"] "example.xml" ∧
  ¬ dir_holds_only
      (files (@main demo_lib rich_markup "empty.xsd" None stale_world).2)
      ["out"] "schema_summary.txt".
Proof.
  assert (dir_has
            (files (@main demo_lib rich_markup "empty.xsd" None stale_world).2)
            ["out"] "example.xml") as Hhas.
  { eexists. vm_compute. reflexivity. }
  repeat (split; [vm_compute; reflexivity|]).
  split; [eexists; vm_compute; reflexivity|].
  split; [exact Hhas|].
  intros Honly. by apply Honly in Hhas.
Qed.

Lemma main_artifacts_witness :
  ∃ w5,
    summarized_run (lib:=demo_lib) (rich:=rich_markup) "mini.xsd" None
      mini_world mini_summary w5 ∧
    writes w5 = [(["out"; "schema_summary.txt"],
                  TextData mini_summary "utf-8")] ∧
    read_file (files w5) ["out"; "schema_summary.txt"] =
      inr (TextData mini_summary "utf-8") ∧
    writes (@main demo_lib rich_markup "mini.xsd" None mini_world).2 =
      writes w5 ∧
    files (@main demo_lib rich_markup "mini.xsd" None mini_world).2 = files w5.
Proof.
  opose proof (@summarized_run_intro demo_lib rich_markup "mini.xsd" None
                 mini_world mini_summary _ _ _ _ _ _) as Hrun;
    [vm_compute; reflexivity ..|].
  eexists. split; [exact Hrun|].
  destruct (@main_artifacts demo_lib rich_markup _ _ _ _ _ Hrun)
    as (Hwr & Hread & Hfail & _).
  split; [exact Hwr|]. split; [exact Hread|].
  eapply (Hfail (AttributeError
                   "'XsdElement' object has no attribute 'to_etree'")).
  apply run_eq; vm_compute; reflexivity.
Defined.

Lemma main_progress_messages_name_out_witness :
  ∃ w5,
    summarized_run (lib:=demo_lib) (rich:=rich_markup) "mini.xsd"
      (Some "build") mini_world mini_summary w5 ∧
    console w5 = ["[bold]Analyzing[/bold] mini.xsd";
                  "- Wrote out/schema_summary.txt"] ∧
    writes w5 = [(["build"; "schema_summary.txt"],
                  TextData mini_summary "utf-8")] ∧
    read_file (files w5) ["build"; "schema_summary.txt"] =
      inr (TextData mini_summary "utf-8") ∧
    read_file (files w5) ["out"; "schema_summary.txt"] = inl ENOENT ∧
    ∃ more,
      console (@main demo_lib rich_markup "mini.xsd" (Some "build")
                 mini_world).2 = console w5 ++ more.
Proof.
  opose proof (@summarized_run_intro demo_lib rich_markup "mini.xsd"
                 (Some "build") mini_world mini_summary _ _ _ _ _ _) as Hrun;
    [vm_compute; reflexivity ..|].
  eexists. split; [exact Hrun|].
  destruct (@main_progress_messages_name_out demo_lib rich_markup _ _ _ _ _
              Hrun) as (Hcon & Hwr & Hmore & _).
  split; [exact Hcon|]. split; [exact Hwr|].
  split; [vm_compute; reflexivity|]. split; [vm_compute; reflexivity|].
  exact Hmore.
Defined.

(** * Further properties of the driver *)

(** ** Every run of [main], case by case *)

Section DriverCases.
Context {lib : XmlSchemaLib} {rich : RichLib}.

(** After the summary is announced: the [try] statement. *)
Lemma main_try_cases (xsd : string) (out : option string) (w w5 : World)
    (summary : string) :
  summarized_run xsd out w summary w5 →
  (∃ e w6,
     generate_example_xml (PurePath xsd) w5 = (inl e, w6) ∧
     main xsd out w = uncaught (print (skipped_msg e)) w6) ∨
  (∃ tree w6 e,
     generate_example_xml (PurePath xsd) w5 = (inr tree, w6) ∧
     main xsd out w = uncaught (print (skipped_msg e)) w6) ∨
  (∃ tree w6 w7 e,
     generate_example_xml (PurePath xsd) w5 = (inr tree, w6) ∧
     tree_write tree (example_path (out_dir_of out)) true "utf-8" true w6
       = (inr tt, w7) ∧
     main xsd out w = uncaught (print (skipped_msg e)) w7) ∨
  (∃ tree w6 w7,
     generate_example_xml (PurePath xsd) w5 = (inr tree, w6) ∧
     tree_write tree (example_path (out_dir_of out)) true "utf-8" true w6
       = (inr tt, w7) ∧
     main xsd out w = (inr tt, log (EPrint "- Wrote out/example.xml") w7)).
Proof.
  intros Hrun.
  destruct (generate_example_xml (PurePath xsd) w5) as [[e|tree] w6] eqn:Hgen.
  { left. exists e, w6. split; [done|]. by eapply main_generation_raises. }
  right.
  destruct (tree_write tree (example_path (out_dir_of out)) true "utf-8"
              true w6) as [[e|[]] w7] eqn:Hxml.
  { left. exists tree, w6, e. split; [done|].
    rewrite (main_example_write_raises _ _ _ _ _ _ _ _ _ Hrun Hgen Hxml).
    by apply tree_write_raises in Hxml as ->. }
  right.
  destruct (print "- Wrote out/example.xml" w7) as [[e|[]] w8] eqn:Hpr.
  { left. exists tree, w6, w7, e. split; [done|]. split; [done|].
    rewrite (main_example_message_raises _ _ _ _ _ _ _ _ _ _
               Hrun Hgen Hxml Hpr).
    by apply print_raises in Hpr as [-> _]. }
  right. exists tree, w6, w7. split; [done|]. split; [done|].
  rewrite (main_example_written _ _ _ _ _ _ _ _ _ Hrun Hgen Hxml Hpr).
  by apply print_returns in Hpr as ->.
Qed.

(** Before that: every call outside the [try] statement ends the run
    when it raises. *)
Lemma main_cases (xsd : string) (out : option string) (w : World) :
  (∃ e w1,
     Path_mkdir (out_dir_of out) w = (inl e, w1) ∧
     main xsd out w = (inl (Exc e), w1)) ∨
  (∃ w1,
     Path_mkdir (out_dir_of out) w = (inr tt, w1) ∧
     path_exists w1 (PurePath xsd) = false ∧
     main xsd out w = (inl (SystemExit (not_found_msg (PurePath xsd))), w1)) ∨
  (∃ w1 e,
     Path_mkdir (out_dir_of out) w = (inr tt, w1) ∧
     path_exists w1 (PurePath xsd) = true ∧
     markup_error (analyzing_msg (PurePath xsd)) = Some e ∧
     main xsd out w = (inl (Exc e), w1)) ∨
  (∃ w2 e,
     validated_run xsd out w w2 ∧
     main xsd out w = (inl (Exc e), log (ELoadSchema (PurePath xsd)) w2)) ∨
  (∃ w2 summary w3,
     validated_run xsd out w w2 ∧
     summarize_schema (PurePath xsd) w2 = (inr summary, w3) ∧
     ((∃ e, main xsd out w = (inl (Exc e), w3)) ∨
      (∃ w4 e,
         write_text (summary_path (out_dir_of out)) summary "utf-8" w3
           = (inr tt, w4) ∧
         main xsd out w = (inl (Exc e), w4)) ∨
      (∃ w5, summarized_run xsd out w summary w5))).
Proof.
  destruct (Path_mkdir (out_dir_of out) w) as [[e|[]] w1] eqn:Hmk.
  { left. exists e, w1. split; [done|]. by apply main_mkdir_raises. }
  right.
  destruct (path_exists w1 (PurePath xsd)) eqn:Hex.
  2:{ left. exists w1. split; [done|]. split; [done|]. by apply main_not_found. }
  right.
  destruct (print (analyzing_msg (PurePath xsd)) w1) as [[e|[]] w2] eqn:Hpr.
  { left. exists w1, e. split; [done|]. split; [done|].
    rewrite (main_banner_raises _ _ _ _ _ _ Hmk Hex Hpr).
    by apply print_raises in Hpr as [-> ->]. }
  right.
  assert (validated_run xsd out w w2) as Hval by (by exists w1).
  destruct (summarize_schema (PurePath xsd) w2) as [[e|summary] w3] eqn:Hsum.
  { left. exists w2, e. split; [done|].
    rewrite (main_summary_raises _ _ _ _ _ _ Hval Hsum).
    by apply summarize_schema_world in Hsum as ->. }
  right. exists w2, summary, w3. split; [done|]. split; [done|].
  destruct (write_text (summary_path (out_dir_of out)) summary "utf-8" w3)
    as [[e|[]] w4] eqn:Hwr.
  { left. exists e. rewrite (main_write_raises _ _ _ _ _ _ _ _ Hval Hsum Hwr).
    by apply write_text_raises in Hwr as ->. }
  right.
  destruct (print "- Wrote out/schema_summary.txt" w4) as [[e|[]] w5] eqn:Hpr2.
  { left. exists w4, e. split; [done|].
    rewrite (main_summary_message_raises _ _ _ _ _ _ _ _ _
               Hval Hsum Hwr Hpr2).
    by apply print_raises in Hpr2 as [-> _]. }
  right. exists w5. by exists w2, w3, w4.
Qed.

End DriverCases.

(** ** Nothing is lost *)

Lemma keeps_entries_refl (fs : gmap Path Node) : keeps_entries fs fs.
Proof. intros x n Hstat. by exists n. Qed.

Lemma keeps_entries_trans (fs1 fs2 fs3 : gmap Path Node) :
  keeps_entries fs1 fs2 → keeps_entries fs2 fs3 → keeps_entries fs1 fs3.
Proof.
  intros H12 H23 x n1 Hstat1.
  destruct (H12 x n1 Hstat1) as (n2 & Hstat2 & Hdir2).
  destruct (H23 x n2 Hstat2) as (n3 & Hstat3 & Hdir3).
  exists n3. split; [done|]. congruence.
Qed.

Lemma keeps_entries_nodes (fs fs' : gmap Path Node) :
  (∀ x n, node_at fs x = Some n →
          ∃ n', node_at fs' x = Some n' ∧ is_dir_node n' = is_dir_node n) →
  keeps_entries fs fs'.
Proof.
  intros Hnodes x n. unfold stat.
  destruct (resolve fs x) as [errno|q] eqn:Hres; [done|].
  rewrite (resolve_mono fs fs' x q); [| |done].
  - destruct (node_at fs q) as [n0|] eqn:Hq; [|done]. intros [= <-].
    destruct (Hnodes q n0 Hq) as (n' & -> & Hdir). by exists n'.
  - intros y Hy. destruct (Hnodes y Dir Hy) as (n' & Hy' & Hdir).
    by destruct n'.
Qed.

Lemma only_new_dirs_keeps (fs fs' : gmap Path Node) :
  only_new_dirs fs fs' → keeps_entries fs fs'.
Proof.
  intros Hnew. apply keeps_entries_nodes. intros x n. unfold node_at.
  destruct (ambient x); [intros [= <-]; by exists Dir|].
  destruct (Hnew x) as [->|[-> _]]; [|done]. intros ->. by exists n.
Qed.

Lemma os_write_keeps (fs fs' : gmap Path Node) (p : Path) (d : FileData) :
  os_write fs p d = inr fs' → keeps_entries fs fs'.
Proof.
  unfold os_write. destruct (resolve fs p) as [errno|q]; [done|].
  intros Hw. apply keeps_entries_nodes. intros x n Hx.
  destruct (decide (x = q)) as [->|Hne].
  - rewrite Hx in Hw. destruct n as [d0|]; [|done]. simplify_eq/=.
    exists (File d). split; [|done]. unfold node_at in *.
    destruct (ambient q); [done|]. by rewrite lookup_insert_eq.
  - exists n. split; [|done].
    assert (fs' = <[q := File d]> fs) as ->
      by (destruct (node_at fs q) as [[?|]|]; by simplify_eq/=).
    unfold node_at in *. destruct (ambient x); [done|].
    by rewrite lookup_insert_ne.
Qed.

Lemma keeps_entries_is_dir (fs fs' : gmap Path Node) (p : Path) :
  keeps_entries fs fs' → is_dir_path fs p = true → is_dir_path fs' p = true.
Proof.
  unfold is_dir_path. intros Hkeep.
  destruct (stat fs p) as [errno|n] eqn:Hstat; [done|].
  destruct (Hkeep p n Hstat) as (n' & -> & ->). done.
Qed.

Lemma keeps_entries_read_file (fs fs' : gmap Path Node) (p : Path)
    (d : FileData) :
  keeps_entries fs fs' → read_file fs p = inr d →
  ∃ d', read_file fs' p = inr d'.
Proof.
  unfold read_file. intros Hkeep.
  destruct (stat fs p) as [errno|[d0|]] eqn:Hstat; [done| |done].
  destruct (Hkeep p _ Hstat) as ([d'|] & -> & Hdir); [|done]. by eexists.
Qed.

Section FilesKept.
Context {lib : XmlSchemaLib} {rich : RichLib}.

Lemma files_kept_same {E A} (m : M E A) :
  (∀ w, files (m w).2 = files w) → files_kept m.
Proof. intros Hsame w. rewrite Hsame. apply keeps_entries_refl. Qed.

Lemma files_kept_bind {E A B} (m : M E A) (k : A → M E B) :
  files_kept m → (∀ a, files_kept (k a)) → files_kept (bind m k).
Proof.
  intros Hm Hk w. unfold bind. specialize (Hm w).
  destruct (m w) as [[e|a] w']; [done|].
  eapply keeps_entries_trans; [exact Hm|apply Hk].
Qed.

Lemma files_kept_uncaught {A} (m : M Exception A) :
  files_kept m → files_kept (uncaught m).
Proof.
  intros Hm w. unfold uncaught. specialize (Hm w).
  by destruct (m w) as [[e|a] w'].
Qed.

Lemma files_kept_try_except {E A} (body : M Exception A)
    (handler : Exception → M E A) :
  files_kept body → (∀ e, files_kept (handler e)) →
  files_kept (try_except body handler).
Proof.
  intros Hbody Hhandler w. unfold try_except. specialize (Hbody w).
  destruct (body w) as [[e|a] w']; [|done].
  eapply keeps_entries_trans; [exact Hbody|apply Hhandler].
Qed.

Lemma files_kept_print (s : string) : files_kept (print s).
Proof. apply files_kept_same. intros w. apply print_frame. Qed.

Lemma files_kept_Path_mkdir (p : Path) : files_kept (Path_mkdir p).
Proof.
  intros w. apply only_new_dirs_keeps.
  destruct (Path_mkdir p w) as [[e|[]] w1] eqn:Hmk; cbn [snd].
  - by apply Path_mkdir_raises in Hmk as [_ Hnew].
  - by apply Path_mkdir_returns in Hmk as (_ & _ & Hnew).
Qed.

Lemma files_kept_write_text (p : Path) (data encoding : string) :
  files_kept (write_text p data encoding).
Proof.
  intros w. unfold write_text.
  destruct (os_write (files w) p _) as [errno|fs] eqn:Hw; cbn [snd].
  - apply keeps_entries_refl.
  - by eapply os_write_keeps.
Qed.

Lemma files_kept_tree_write (tree : ElementTree) (p : Path) (decl : bool)
    (encoding : string) (pretty_print : bool) :
  files_kept (tree_write tree p decl encoding pretty_print).
Proof.
  intros w. unfold tree_write.
  destruct (os_write (files w) p _) as [errno|fs] eqn:Hw; cbn [snd].
  - apply keeps_entries_refl.
  - by eapply os_write_keeps.
Qed.

Lemma files_kept_summarize_schema (p : Path) : files_kept (summarize_schema p).
Proof.
  apply files_kept_same. intros w.
  destruct (summarize_schema p w) as [r w'] eqn:Hsum. cbn [snd].
  by apply summarize_schema_world in Hsum as ->.
Qed.

Lemma files_kept_generate_example_xml (p : Path) :
  files_kept (generate_example_xml p).
Proof.
  apply files_kept_same. intros w.
  destruct (generate_example_xml p w) as [r w'] eqn:Hgen. cbn [snd].
  by apply generate_example_xml_frame in Hgen as [-> _].
Qed.

(** [main] from the test of the schema path on. *)
Lemma files_kept_main_rest (xsd_path out_dir : Path) :
  files_kept
    (found <- Path_exists xsd_path ;;
     if negb found then
       raise (SystemExit ("XSD not found: " +:+ path_str xsd_path))
     else
       uncaught (print ("[bold]Analyzing[/bold] " +:+ path_str xsd_path)) ;;
       summary <- uncaught (summarize_schema xsd_path) ;;
       uncaught (write_text (out_dir </> "schema_summary.txt") summary "utf-8") ;;
       uncaught (print "- Wrote out/schema_summary.txt") ;;
       try_except
         (tree <- generate_example_xml xsd_path ;;
          tree_write tree (out_dir </> "example.xml") true "utf-8" true ;;
          print "- Wrote out/example.xml")
         (λ e,
            uncaught
              (print ("[yellow]- Skipped example XML generation: "
                      +:+ exn_str e)))).
Proof.
  apply files_kept_bind; [by apply files_kept_same|]. intros found.
  destruct (negb found); [by apply files_kept_same|].
  repeat first
    [ apply files_kept_print
    | apply files_kept_summarize_schema
    | apply files_kept_generate_example_xml
    | apply files_kept_write_text
    | apply files_kept_tree_write
    | apply files_kept_uncaught
    | apply files_kept_try_except; [|intros ?]
    | apply files_kept_bind; [|intros ?] ].
Qed.

Lemma files_kept_main (xsd : string) (out : option string) :
  files_kept (main xsd out).
Proof.
  unfold main. cbv zeta. apply files_kept_bind; [|intros _].
  - apply files_kept_uncaught, files_kept_Path_mkdir.
  - apply files_kept_main_rest.
Qed.

Lemma main_after_mkdir (xsd : string) (out : option string) (w w1 : World) :
  Path_mkdir (out_dir_of out) w = (inr tt, w1) →
  keeps_entries (files w1) (files (main xsd out w).2).
Proof.
  intros Hmk. unfold main. cbv zeta.
  unfold bind at 1. unfold uncaught at 1. unfold out_dir_of in Hmk.
  rewrite Hmk. apply files_kept_main_rest.
Qed.

End FilesKept.

(** ** What a run of [main] prints, writes and leaves behind *)

Section DriverMore.
Context {lib : XmlSchemaLib} {rich : RichLib}.

Lemma uncaught_print_no_exit (s : string) (w : World) (code : string) :
  (uncaught (print s) w).1 ≠ inl (SystemExit code).
Proof. unfold uncaught. by destruct (print s w) as [[e|[]] w']. Qed.

(** The writes of a run that has announced its summary. *)
Lemma main_try_writes (xsd : string) (out : option string) (w w5 : World)
    (summary : string) :
  summarized_run xsd out w summary w5 →
  writes (main xsd out w).2 =
    writes w ++ [(summary_path (out_dir_of out), TextData summary "utf-8")] ∨
  (∃ tree w6,
     generate_example_xml (PurePath xsd) w5 = (inr tree, w6) ∧
     writes (main xsd out w).2 =
       writes w ++ [(summary_path (out_dir_of out), TextData summary "utf-8");
                    (example_path (out_dir_of out),
                     XmlData tree true "utf-8" true)]).
Proof.
  intros Hrun.
  pose proof (summarized_run_trace _ _ _ _ _ Hrun) as [Htr5 _].
  apply writes_of_trace in Htr5. cbn [omap] in Htr5.
  destruct (main_try_cases _ _ _ _ _ Hrun)
    as [(e & w6 & Hgen & ->)|[(tree & w6 & e & Hgen & ->)
        |[(tree & w6 & w7 & e & Hgen & Hxml & ->)
         |(tree & w6 & w7 & Hgen & Hxml & ->)]]];
    apply generate_example_xml_frame in Hgen as Hframe;
    destruct Hframe as (_ & _ & Hwr6 & _).
  - left. destruct (uncaught_print_frame (skipped_msg e) w6) as (_ & -> & _).
    by rewrite Hwr6.
  - left. destruct (uncaught_print_frame (skipped_msg e) w6) as (_ & -> & _).
    by rewrite Hwr6.
  - right. exists tree, w6. split; [done|].
    destruct (uncaught_print_frame (skipped_msg e) w7) as (_ & -> & _).
    apply tree_write_returns in Hxml as [Htr7 _].
    rewrite (writes_of_trace _ _ _ Htr7), Hwr6, Htr5, <- app_assoc. done.
  - right. exists tree, w6. split; [done|]. cbn [snd].
    rewrite writes_log_other by done.
    apply tree_write_returns in Hxml as [Htr7 _].
    rewrite (writes_of_trace _ _ _ Htr7), Hwr6, Htr5, <- app_assoc. done.
Qed.

(** X5: a schema path whose text is not well-formed console markup
    (an unmatched closing tag) stops the run at the banner: the
    exception of [print] leaves [main], the exit status is not 0, and
    but for the output directory, which is made by then, the run has
    done nothing: no schema load, nothing printed, nothing written. *)
Theorem main_banner_markup_error (w w1 : World) (xsd : string)
    (out : option string) (e : Exception) :
  Path_mkdir (out_dir_of out) w = (inr tt, w1) →
  path_exists w1 (PurePath xsd) = true →
  markup_error ("[bold]Analyzing[/bold] " +:+ path_str (PurePath xsd))
    = Some e →
  main xsd out w = (inl (Exc e), w1) ∧
  exit_status (main xsd out w).1 ≠ 0 ∧
  trace (main xsd out w).2 = trace w ++ [EMkdir (out_dir_of out)] ∧
  console (main xsd out w).2 = console w ∧
  writes (main xsd out w).2 = writes w.
Proof.
  intros Hmk Hex Hmarkup.
  assert (print (analyzing_msg (PurePath xsd)) w1 = (inl e, w1)) as Hpr.
  { unfold print, analyzing_msg. by rewrite Hmarkup. }
  rewrite (main_banner_raises _ _ _ _ _ _ Hmk Hex Hpr). cbn [fst snd].
  apply Path_mkdir_returns in Hmk as (Htr & _).
  split; [done|]. split; [done|]. split; [done|].
  rewrite (console_of_trace _ _ _ Htr), (writes_of_trace _ _ _ Htr).
  cbn [omap]. by rewrite !app_nil_r.
Qed.

(** X6: an error of the write of the summary is fatal, unlike an error
    of the write of the example: the exception leaves [main], the exit
    status is not 0, the summary is not announced and generation is
    not tried; the files are as the creation of the output directory
    left them. *)
Theorem main_summary_write_error (w w2 w3 w4 : World) (xsd : string)
    (out : option string) (summary : string) (e : Exception) :
  validated_run xsd out w w2 →
  summarize_schema (PurePath xsd) w2 = (inr summary, w3) →
  write_text (out_dir_of out </> "schema_summary.txt") summary "utf-8" w3
    = (inl e, w4) →
  main xsd out w = (inl (Exc e), w3) ∧
  exit_status (main xsd out w).1 ≠ 0 ∧
  trace (main xsd out w).2 =
    trace w ++
    [EMkdir (out_dir_of out);
     EPrint ("[bold]Analyzing[/bold] " +:+ path_str (PurePath xsd));
     ELoadSchema (PurePath xsd)] ∧
  files (main xsd out w).2 = files w2.
Proof.
  intros Hval Hsum Hwr. fold (summary_path (out_dir_of out)) in Hwr.
  rewrite (main_write_raises _ _ _ _ _ _ _ _ Hval Hsum Hwr). cbn [fst snd].
  apply write_text_raises in Hwr as ->.
  apply summarize_schema_world in Hsum as ->.
  apply validated_run_trace in Hval as [Htr _].
  split; [done|]. split; [done|]. cbn [log trace files].
  by rewrite Htr, <- app_assoc.
Qed.

(** X7: a run writes at most two files, in a fixed order: nothing; or
    what the summarizer returned, to [schema_summary.txt]; or that and
    then, to [example.xml], the tree that generation returned.  A run
    that ends with exit status 0 has written the summary. *)
Theorem main_write_order (w : World) (xsd : string) (out : option string) :
  (exit_status (main xsd out w).1 = 0 →
   ∃ summary w5,
     summarized_run xsd out w summary w5 ∧
     (writes (main xsd out w).2 =
        writes w ++ [(out_dir_of out </> "schema_summary.txt",
                      TextData summary "utf-8")] ∨
      ∃ tree w6,
        generate_example_xml (PurePath xsd) w5 = (inr tree, w6) ∧
        writes (main xsd out w).2 =
          writes w ++ [(out_dir_of out </> "schema_summary.txt",
                        TextData summary "utf-8");
                       (out_dir_of out </> "example.xml",
                        XmlData tree true "utf-8" true)])) ∧
  (writes (main xsd out w).2 = writes w ∨
   (∃ summary w2 w3,
      validated_run xsd out w w2 ∧
      summarize_schema (PurePath xsd) w2 = (inr summary, w3) ∧
      writes (main xsd out w).2 =
        writes w ++ [(out_dir_of out </> "schema_summary.txt",
                      TextData summary "utf-8")]) ∨
   (∃ summary w5 tree w6,
      summarized_run xsd out w summary w5 ∧
      generate_example_xml (PurePath xsd) w5 = (inr tree, w6) ∧
      writes (main xsd out w).2 =
        writes w ++ [(out_dir_of out </> "schema_summary.txt",
                      TextData summary "utf-8");
                     (out_dir_of out </> "example.xml",
                      XmlData tree true "utf-8" true)])).
Proof.
  fold (summary_path (out_dir_of out)). fold (example_path (out_dir_of out)).
  destruct (main_cases xsd out w)
    as [(e & w1 & Hmk & Hmain)|[(w1 & Hmk & Hex & Hmain)
        |[(w1 & e & Hmk & Hex & Hmarkup & Hmain)|[(w2 & e & Hval & Hmain)
         |(w2 & summary & w3 & Hval & Hsum
           & [(e & Hmain)|[(w4 & e & Hwr & Hmain)|(w5 & Hrun)]])]]]].
  - rewrite Hmain. cbn [fst snd]. split; [done|]. left.
    apply Path_mkdir_raises in Hmk as [Htr _]. unfold writes. by rewrite Htr.
  - rewrite Hmain. cbn [fst snd]. split; [done|]. left.
    apply Path_mkdir_returns in Hmk as [Htr _].
    rewrite (writes_of_trace _ _ _ Htr). apply app_nil_r.
  - rewrite Hmain. cbn [fst snd]. split; [done|]. left.
    apply Path_mkdir_returns in Hmk as [Htr _].
    rewrite (writes_of_trace _ _ _ Htr). apply app_nil_r.
  - rewrite Hmain. cbn [fst snd]. split; [done|]. left.
    apply validated_run_trace in Hval as [Htr _].
    rewrite writes_log_other by done.
    rewrite (writes_of_trace _ _ _ Htr). apply app_nil_r.
  - rewrite Hmain. cbn [fst snd]. split; [done|]. left.
    apply summarize_schema_world in Hsum as ->.
    apply validated_run_trace in Hval as [Htr _].
    rewrite writes_log_other by done.
    rewrite (writes_of_trace _ _ _ Htr). apply app_nil_r.
  - rewrite Hmain. cbn [fst snd]. split; [done|]. right; left.
    exists summary, w2, w3. split; [done|]. split; [done|].
    apply write_text_returns in Hwr as [Htr4 _].
    rewrite (writes_of_trace _ _ _ Htr4). cbn [omap]. f_equal.
    apply summarize_schema_world in Hsum as ->.
    apply validated_run_trace in Hval as [Htr _].
    rewrite writes_log_other by done.
    rewrite (writes_of_trace _ _ _ Htr). apply app_nil_r.
  - pose proof (main_try_writes _ _ _ _ _ Hrun) as Hwrites. split.
    + intros _. by exists summary, w5.
    + right. destruct Hwrites as [Hone|(tree & w6 & Hgen & Htwo)].
      * left. by exists summary, w2, w3.
      * right. by exists summary, w5, tree, w6.
Qed.

(** X8: a run removes nothing, however it ends: a path that named a
    directory before the run names one after it, and a path that named
    a regular file still names a regular file; and once the creation
    of the output directory has returned, the output directory is
    there at the end of the run. *)
Theorem main_keeps_entries (w : World) (xsd : string) (out : option string) :
  (∀ x, is_dir_path (files w) x = true →
        is_dir_path (files (main xsd out w).2) x = true) ∧
  (∀ x d, read_file (files w) x = inr d →
          ∃ d', read_file (files (main xsd out w).2) x = inr d') ∧
  (∀ w1, Path_mkdir (out_dir_of out) w = (inr tt, w1) →
         is_dir_path (files (main xsd out w).2) (out_dir_of out) = true).
Proof.
  pose proof (files_kept_main xsd out w) as Hkeep.
  split; [|split].
  - intros x. by apply keeps_entries_is_dir.
  - intros x d. by apply keeps_entries_read_file.
  - intros w1 Hmk.
    apply (keeps_entries_is_dir (files w1)); [by apply main_after_mkdir|].
    by apply Path_mkdir_returns in Hmk as (_ & Hdir & _).
Qed.

(** X9: [main] ends with [SystemExit] in one case only, that of the
    schema path naming nothing once the output directory is made, and
    then with the message [XSD not found: path]; in every other failing
    run an [Exception] leaves [main]. *)
Theorem main_system_exit_iff (w : World) (xsd : string) (out : option string)
    (code : string) :
  (main xsd out w).1 = inl (SystemExit code) ↔
  code = "XSD not found: " +:+ path_str (PurePath xsd) ∧
  ∃ w1, Path_mkdir (out_dir_of out) w = (inr tt, w1) ∧
        path_exists w1 (PurePath xsd) = false.
Proof.
  split.
  - destruct (main_cases xsd out w)
      as [(e & w1 & Hmk & Hmain)|[(w1 & Hmk & Hex & Hmain)
          |[(w1 & e & Hmk & Hex & Hmarkup & Hmain)|[(w2 & e & Hval & Hmain)
           |(w2 & summary & w3 & Hval & Hsum
             & [(e & Hmain)|[(w4 & e & Hwr & Hmain)|(w5 & Hrun)]])]]]].
    1,3,4,5,6: by rewrite Hmain.
    + rewrite Hmain. cbn [fst]. intros [= <-]. split; [done|]. by exists w1.
    + intros Hexit.
      destruct (main_try_cases _ _ _ _ _ Hrun)
        as [(e & w6 & _ & Hmain)|[(tree & w6 & e & _ & Hmain)
            |[(tree & w6 & w7 & e & _ & _ & Hmain)
             |(tree & w6 & w7 & _ & _ & Hmain)]]];
        rewrite Hmain in Hexit; try done;
        by apply uncaught_print_no_exit in Hexit.
  - intros [-> (w1 & Hmk & Hex)]. by rewrite (main_not_found _ _ _ _ Hmk Hex).
Qed.

(** X10: a run on a schema without global elements, once the summary is
    announced and the warning being printable: generation loads the
    schema a second time and stops at its guard; [main] ends normally,
    having called no synthesis routine and written no example, and the
    last thing printed is the warning with the guard's message. *)
Theorem main_no_elements_run (w w5 : World) (xsd : string)
    (out : option string) (summary : string) (schema : XMLSchema) :
  summarized_run xsd out w summary w5 →
  open_schema (files w5) (PurePath xsd) = inr schema →
  xs_elements schema = [] →
  markup_error
    "[yellow]- Skipped example XML generation: No global elements found in schema; cannot generate example"
    = None →
  (main xsd out w).1 = inr tt ∧
  trace (main xsd out w).2 =
    trace w ++
    [EMkdir (out_dir_of out);
     EPrint ("[bold]Analyzing[/bold] " +:+ path_str (PurePath xsd));
     ELoadSchema (PurePath xsd);
     EWriteFile (out_dir_of out </> "schema_summary.txt")
       (TextData summary "utf-8");
     EPrint "- Wrote out/schema_summary.txt";
     ELoadSchema (PurePath xsd);
     EPrint "[yellow]- Skipped example XML generation: No global elements found in schema; cannot generate example"].
Proof.
  intros Hrun Hopen Hnone Hmarkup.
  assert (generate_example_xml (PurePath xsd) w5 =
          (inl (ValueError no_elements_msg),
           log (ELoadSchema (PurePath xsd)) w5)) as Hgen.
  { by rewrite generate_example_xml_run, Hopen, Hnone. }
  rewrite (main_generation_raises _ _ _ _ _ _ _ Hrun Hgen).
  unfold uncaught, print, skipped_msg, no_elements_msg. cbn [exn_str].
  change ("[yellow]- Skipped example XML generation: " +:+
          "No global elements found in schema; cannot generate example")
    with "[yellow]- Skipped example XML generation: No global elements found in schema; cannot generate example".
  rewrite Hmarkup. cbn [fst snd log trace]. split; [done|].
  apply summarized_run_trace in Hrun as [-> _].
  by rewrite <- !app_assoc.
Qed.

End DriverMore.

(** *** Concrete runs *)

Lemma main_banner_markup_error_witness :
  (@main demo_lib rich_markup "a[/b].xsd" None bracket_world).1 =
    inl (Exc (MarkupError
                "closing tag '[/b]' at position 24 doesn't match any open tag")) ∧
  trace (@main demo_lib rich_markup "a[/b].xsd" None bracket_world).2 =
    [EMkdir ["out"]].
Proof.
  opose proof (@main_banner_markup_error demo_lib rich_markup bracket_world _
                 "a[/b].xsd" None
                 (MarkupError
                    "closing tag '[/b]' at position 24 doesn't match any open tag")
                 _ _ _) as (Hmain & _ & Htr & _).
  - apply run_eq; vm_compute; reflexivity.
  - vm_compute; reflexivity.
  - vm_compute; reflexivity.
  - split; [by rewrite Hmain|exact Htr].
Defined.

Lemma main_summary_write_error_witness :
  (@main demo_lib rich_markup "mini.xsd" None summary_dir_world).1 =
    inl (Exc (OSError EISDIR "out/schema_summary.txt")) ∧
  trace (@main demo_lib rich_markup "mini.xsd" None summary_dir_world).2 =
    [EMkdir ["out"]; EPrint "[bold]Analyzing[/bold] mini.xsd";
     ELoadSchema ["mini.xsd"]].
Proof.
  opose proof (@main_summary_write_error demo_lib rich_markup
                 summary_dir_world _ _ _ "mini.xsd" None mini_summary
                 (OSError EISDIR "out/schema_summary.txt") _ _ _)
    as (Hmain & _ & Htr & _).
  - apply (validated_run_intro (rich:=rich_markup)); vm_compute; reflexivity.
  - apply run_eq; vm_compute; reflexivity.
  - apply run_eq; vm_compute; reflexivity.
  - split; [by rewrite Hmain|exact Htr].
Defined.

Lemma main_write_order_witness :
  ∃ summary w5,
    summarized_run (lib:=demo_lib) (rich:=rich_markup) "mini.xsd" None
      mini_world summary w5 ∧
    (writes (@main demo_lib rich_markup "mini.xsd" None mini_world).2 =
       [(["out"; "schema_summary.txt"], TextData summary "utf-8")] ∨
     ∃ tree w6,
       @generate_example_xml demo_lib ["mini.xsd"] w5 = (inr tree, w6) ∧
       writes (@main demo_lib rich_markup "mini.xsd" None mini_world).2 =
         [(["out"; "schema_summary.txt"], TextData summary "utf-8");
          (["out"; "example.xml"], XmlData tree true "utf-8" true)]).
Proof.
  apply (proj1 (@main_write_order demo_lib rich_markup mini_world "mini.xsd"
                  None)).
  vm_compute; reflexivity.
Defined.

Lemma main_keeps_entries_witness :
  is_dir_path (files (@main demo_lib rich_markup "empty.xsd" None
                        stale_world).2) ["out"] = true ∧
  ∃ d, read_file (files (@main demo_lib rich_markup "empty.xsd" None
                           stale_world).2) ["out"; "example.xml"] = inr d.
Proof.
  destruct (@main_keeps_entries demo_lib rich_markup stale_world "empty.xsd"
              None) as (Hdirs & Hfiles & _).
  split.
  - apply Hdirs. vm_compute; reflexivity.
  - apply (Hfiles _ (XmlData stale_tree true "utf-8" true)).
    vm_compute; reflexivity.
Defined.

Lemma main_system_exit_iff_witness :
  (@main demo_lib rich_markup "missing.xsd" None blank_world).1 =
    inl (SystemExit "XSD not found: missing.xsd") ∧
  (@main demo_lib rich_markup "mini.xsd" (Some "mini.xsd") mini_world).1 ≠
    inl (SystemExit "XSD not found: mini.xsd").
Proof.
  split.
  - apply (@main_system_exit_iff demo_lib rich_markup). split; [reflexivity|].
    eexists. split; [apply run_eq|]; vm_compute; reflexivity.
  - intros Hexit.
    apply (@main_system_exit_iff demo_lib rich_markup) in Hexit
      as (_ & w1 & Hmk & _).
    vm_compute in Hmk. discriminate Hmk.
Defined.

Lemma main_no_elements_run_witness :
  (@main demo_lib rich_markup "empty.xsd" None empty_world).1 = inr tt ∧
  trace (@main demo_lib rich_markup "empty.xsd" None empty_world).2 =
    [EMkdir ["out"];
     EPrint "[bold]Analyzing[/bold] empty.xsd";
     ELoadSchema ["empty.xsd"];
     EWriteFile ["out"; "schema_summary.txt"] (TextData empty_summary "utf-8");
     EPrint "- Wrote out/schema_summary.txt";
     ELoadSchema ["empty.xsd"];
     EPrint "[yellow]- Skipped example XML generation: No global elements found in schema; cannot generate example"].
Proof.
  opose proof (@main_no_elements_run demo_lib rich_markup empty_world _
                 "empty.xsd" None empty_summary empty_schema _ _ _ _)
    as (Hmain & Htr).
  - apply (@summarized_run_intro demo_lib rich_markup); vm_compute; reflexivity.
  - vm_compute; reflexivity.
  - reflexivity.
  - vm_compute; reflexivity.
  - split; [exact Hmain|exact Htr].
Defined.
